(** * Sentinel-1 download script: a shallow embedding and its properties

    The script [download_sentinel1.py] is glue around its collaborators:
    the process environment, the local file system and the remote catalogue
    reached through [sentinelsat.SentinelAPI] (with [pandas] for the dates).  Every interaction with a
    collaborator is recorded as an [Event]; a Python computation is a
    function from the events seen so far to an outcome (a value or a raised
    exception) and the events it adds.  The remote catalogue may answer
    differently from one call to the next, so its answers are functions of
    the whole history. *)

From Stdlib Require Import ZArith List String Ascii DecimalString Lia Permutation.
From stdpp Require Import base gmap strings list.
Import ListNotations.

(** ** Python values that cross the collaborator boundary *)

Inductive pyval : Type :=
| VNone
| VStr (s : string)
| VTuple (items : list string).

(** One row of the table returned by [api.to_dataframe]; only the three
    columns the script selects are kept. *)
Record Product : Type := {
  title : string;
  uuid : string;
  beginposition : Z
}.

(** The part of the dictionary returned by [api.get_product_odata] that the
    script reads. *)
Record Meta : Type := {
  meta_title : string;
  meta_Online : bool
}.

(** A [SentinelAPI] session object. *)
Record Api : Type := {
  api_user : string;
  api_password : string;
  api_url : string
}.

(** The exceptions the script can end with.  [ExternalError] stands for
    whatever a collaborator raises on its own account (an unreadable
    footprint file, a network or authentication failure); the script
    catches nothing, so its kind does not matter. *)
Inductive Exn : Type :=
| KeyError (key : string)
| AssertionError (msg : string)
| NameError (name : string)
| ValueError (what : string)
| SystemExit (code : Z)
| ExternalError (origin : string).

(** Entry into one of the three operations of the script, with the
    arguments it received. *)
Inductive Call : Type :=
| CallQuery (footprint_path start_date end_date : string)
            (prod_type pass_direction : option string)
| CallIsOnline (products : list Product)
| CallDownload (products : list Product) (output : string).

(** What a run does, in order.  A remote call is recorded with the answer
    it received: [None] and [false] stand for a call that raised.

    - [EInvoke c]: control enters [query], [is_online] or [download];
    - [EEnviron key]: [os.environ[key]] is evaluated;
    - [ESentinelAPI api]: a [SentinelAPI] object is constructed;
    - [EReadGeojson path]: [read_geojson(path)] opens the footprint file;
    - [ESearch area kwargs resp]: [api.query] with the positional argument
      [area] and the keyword arguments [kwargs];
    - [EOdata id resp]: [api.get_product_odata(id)];
    - [EDownload id directory ok]: [api.download(id, directory)];
    - [EPrint args]: [print] called with the arguments [args];
    - [EParserError msg]: [parser.error(msg)] writes usage and message;
    - [ECwd]: [Path.cwd()]. *)
Inductive Event : Type :=
| EInvoke (c : Call)
| EEnviron (key : string)
| ESentinelAPI (api : Api)
| EReadGeojson (path : string)
| ESearch (area : string) (kwargs : list (string * pyval))
          (resp : option (list Product))
| EOdata (id : string) (resp : option Meta)
| EDownload (id : string) (directory : string) (ok : bool)
| EPrint (args : list string)
| EParserError (msg : string)
| ECwd.

(** ** The collaborators

    What the script does not define: the environment and working directory
    of the process, the footprint files, the date handling of [pandas] and
    the remote catalogue.  [None] is a call that raises.  A timestamp is an
    integer, ordered as the instants are.  The environment and the files do
    not change during a run; the catalogue answers as a function of
    everything that happened before the call. *)

Record World : Type := {
  environ : gmap string string;
  cwd : string;
  read_geojson : string -> option string;
  geojson_to_wkt : string -> option string;
  to_datetime : string -> option Z;
  timestamp_str : Z -> string;
  strftime : Z -> string -> string;
  remote_search :
    list Event -> Api -> string -> list (string * pyval) ->
    option (list Product);
  remote_odata : list Event -> Api -> string -> option Meta;
  remote_download : list Event -> Api -> string -> string -> bool
}.

(** ** Computations *)

(** How a computation ends: with a value, or with an exception that
    propagates (the script has no [try]). *)
Inductive Outcome (A : Type) : Type :=
| Return (a : A)
| Raise (e : Exn).
Arguments Return {A} a.
Arguments Raise {A} e.

(** A computation maps the events so far to its outcome and the events it
    adds. *)
Definition Py (A : Type) : Type := list Event -> Outcome A * list Event.

#[global] Instance Py_ret : MRet Py := fun A a _ => (Return a, []).

#[global] Instance Py_bind : MBind Py := fun A B k m h =>
  match m h with
  | (Return a, t) => let '(r, t') := k a (h ++ t) in (r, t ++ t')
  | (Raise e, t) => (Raise e, t)
  end.

Definition raise {A : Type} (e : Exn) : Py A := fun _ => (Raise e, []).

Definition emit (e : Event) : Py unit := fun _ => (Return tt, [e]).

Definition outcome {A : Type} (m : Py A) (h : list Event) : Outcome A :=
  fst (m h).

Definition trace {A : Type} (m : Py A) (h : list Event) : list Event :=
  snd (m h).

(** ** Projections of a trace *)

Definition is_search (e : Event) : bool :=
  match e with
  | ESearch _ _ _ => true
  | _ => false
  end.

(** The calls that reach the catalogue over the network. *)
Definition is_remote (e : Event) : bool :=
  match e with
  | ESearch _ _ _ | EOdata _ _ | EDownload _ _ _ => true
  | _ => false
  end.

(** Every event a computation emits, from any history, satisfies [P]. *)
Definition emits {A : Type} (P : Event -> bool) (m : Py A) : Prop :=
  forall h, forallb P (trace m h) = true.

Definition searches (t : list Event) : list Event := List.filter is_search t.

Definition remote_calls (t : list Event) : list Event :=
  List.filter is_remote t.

Definition status_queries (t : list Event) : list (string * option Meta) :=
  flat_map (fun e => match e with EOdata u r => [(u, r)] | _ => [] end) t.

Definition download_calls (t : list Event) : list (string * string) :=
  flat_map (fun e => match e with EDownload u d _ => [(u, d)] | _ => [] end) t.

Definition printed (t : list Event) : list (list string) :=
  flat_map (fun e => match e with EPrint a => [a] | _ => [] end) t.

Definition invocations (t : list Event) : list Call :=
  flat_map (fun e => match e with EInvoke c => [c] | _ => [] end) t.

(** ** Small pieces of Python *)

(** The string ['\n']. *)
Definition nl : string := String "010"%char EmptyString.

(** [str(n)] for a length. *)
Definition str_of_nat (n : nat) : string :=
  NilZero.string_of_uint (Nat.to_uint n).

(** Truth value of an optional string: [None] and [''] are false. *)
Definition truthy (v : option string) : bool :=
  match v with
  | Some s => negb (String.eqb s "")
  | None => false
  end.

Definition is_None (v : option string) : bool :=
  match v with
  | Some _ => false
  | None => true
  end.

Definition to_pyval (v : option string) : pyval :=
  match v with
  | Some s => VStr s
  | None => VNone
  end.

(** [s in l] on a list of strings. *)
Definition str_in (s : string) (l : list string) : bool :=
  existsb (String.eqb s) l.

(** [sub in s] on strings. *)
Fixpoint contains (sub s : string) : bool :=
  String.prefix sub s ||
  match s with
  | EmptyString => false
  | String _ s' => contains sub s'
  end.

Definition print (args : list string) : Py unit := emit (EPrint args).

Definition py_assert (cond : bool) (msg : string) : Py unit :=
  if cond then mret tt else raise (AssertionError msg).

(** [os.environ[key]] *)
Definition os_environ (w : World) (key : string) : Py string :=
  emit (EEnviron key);;
  match environ w !! key with
  | Some v => mret v
  | None => raise (KeyError key)
  end.

Definition sentinel_api (user password : string) : Py Api :=
  let api_url := "https://scihub.copernicus.eu/dhus/" in
  let api := {| api_user := user; api_password := password;
                api_url := api_url |} in
  emit (ESentinelAPI api);;
  mret api.

Definition call_read_geojson (w : World) (path : string) : Py string :=
  emit (EReadGeojson path);;
  match read_geojson w path with
  | Some g => mret g
  | None => raise (ExternalError "read_geojson")
  end.

Definition call_geojson_to_wkt (w : World) (g : string) : Py string :=
  match geojson_to_wkt w g with
  | Some f => mret f
  | None => raise (ExternalError "geojson_to_wkt")
  end.

(** [pd.to_datetime(df['dates'], format='%Y%m%d')] on the two-row column. *)
Definition pd_to_datetime (w : World) (d0 d1 : string) : Py (Z * Z) :=
  match to_datetime w d0, to_datetime w d1 with
  | Some t0, Some t1 => mret (t0, t1)
  | _, _ => raise (ValueError "to_datetime")
  end.

Definition api_query (w : World) (api : Api) (area : string)
    (kwargs : list (string * pyval)) : Py (list Product) :=
  fun h =>
    let resp := remote_search w h api area kwargs in
    (match resp with
     | Some ps => Return ps
     | None => Raise (ExternalError "query")
     end, [ESearch area kwargs resp]).

Definition api_get_product_odata (w : World) (api : Api) (id : string)
    : Py Meta :=
  fun h =>
    let resp := remote_odata w h api id in
    (match resp with
     | Some m => Return m
     | None => Raise (ExternalError "get_product_odata")
     end, [EOdata id resp]).

Definition api_download (w : World) (api : Api) (id directory : string)
    : Py unit :=
  fun h =>
    let ok := remote_download w h api id directory in
    (if ok then Return tt else Raise (ExternalError "download"),
     [EDownload id directory ok]).

(** [api.to_dataframe(products)]: the same records, as rows. *)
Definition to_dataframe (products : list Product) : list Product := products.

(** ** [query] *)

(** The four arms of the [if]/[elif] chain on the two optional filters. *)
Inductive Branch : Type :=
| NoFilters
| PassDirectionOnly
| ProductTypeOnly
| BothFilters.

Definition query_branch (prod_type pass_direction : option string) : Branch :=
  if is_None prod_type && is_None pass_direction then NoFilters
  else if truthy pass_direction && negb (truthy prod_type) then
    PassDirectionOnly
  else if truthy prod_type && negb (truthy pass_direction) then
    ProductTypeOnly
  else BothFilters.

Definition scenes_found (n : nat) : list string :=
  [str_of_nat n +:+ " scenes have been found in total"; nl].

Definition date_order_message (w : World) (t0 t1 : Z) : string :=
  "The start date " +:+ timestamp_str w t0 +:+
  " must be smaller than the end date " +:+ timestamp_str w t1.

(** The body of [query] once the session [api] exists. *)
Definition query_body (w : World) (api : Api)
    (footprint_path start_date end_date : string)
    (prod_type pass_direction : option string) : Py (list Product) :=
  geojson ← call_read_geojson w footprint_path;
  footprint ← call_geojson_to_wkt w geojson;
  let date := (start_date, end_date) in
  df ← pd_to_datetime w (fst date) (snd date);
  py_assert (fst df <? snd df)%Z (date_order_message w (fst df) (snd df));;
  products ←
    match query_branch prod_type pass_direction with
    | NoFilters =>
        products ← api_query w api footprint
                     [("date", VTuple [fst date; snd date]);
                      ("platformname", VStr "Sentinel-1")];
        print (scenes_found (length products));;
        mret products
    | PassDirectionOnly =>
        products ← api_query w api footprint
                     [("date", VTuple [fst date; snd date]);
                      ("platformname", VStr "Sentinel-1");
                      ("orbitdirection", to_pyval pass_direction)];
        print (scenes_found (length products));;
        mret products
    | ProductTypeOnly =>
        products ← api_query w api footprint
                     [("date", VTuple [fst date; snd date]);
                      ("platformname", VStr "Sentinel-1");
                      ("producttype", to_pyval prod_type)];
        print (scenes_found (length products));;
        mret products
    | BothFilters =>
        products ← api_query w api footprint
                     [("date", VTuple [fst date; snd date]);
                      ("platformname", VStr "Sentinel-1");
                      ("producttype", to_pyval prod_type);
                      ("orbitdirection", to_pyval pass_direction)];
        print (scenes_found (length products));;
        mret products
    end;
  mret (to_dataframe products).

Definition query (w : World) (footprint_path start_date end_date : string)
    (prod_type pass_direction : option string) : Py (list Product) :=
  emit (EInvoke (CallQuery footprint_path start_date end_date
                           prod_type pass_direction));;
  user ← os_environ w "user";
  password ← os_environ w "password";
  api ← sentinel_api user password;
  query_body w api footprint_path start_date end_date
             prod_type pass_direction.

(** ** [is_online] *)

(** The [for] loop over [products.iterrows()], with the two accumulators. *)
Fixpoint is_online_loop (w : World) (api : Api) (products : list Product)
    (products_online products_offline : list string)
    : Py (list string * list string) :=
  match products with
  | [] => mret (products_online, products_offline)
  | row :: rest =>
      let date := beginposition row in
      let date_str := strftime w date "%Y-%m-%d" in
      meta ← api_get_product_odata w api (uuid row);
      if meta_Online meta then
        is_online_loop w api rest
          (products_online ++ [meta_title meta]) products_offline
      else
        is_online_loop w api rest
          products_online (products_offline ++ [meta_title meta])
  end.

(** [[print(prod) for prod in l]] *)
Fixpoint print_each (l : list string) : Py unit :=
  match l with
  | [] => mret tt
  | prod :: rest => print [prod];; print_each rest
  end.

Definition is_online_report (products_online products_offline : list string)
    : Py unit :=
  if Nat.eqb (length products_offline) 0 &&
     Nat.ltb 0 (length products_online) then
    print [" All products requested(" +:+
           str_of_nat (length products_online) +:+ ") are online"; nl];;
    print_each products_online
  else if Nat.ltb 0 (length products_offline) &&
          Nat.eqb (length products_online) 0 then
    print ["All products requested (" +:+
           str_of_nat (length products_offline) +:+ ") are offline"; nl];;
    print_each products_offline
  else
    print [str_of_nat (length products_online) +:+ " online and " +:+
           str_of_nat (length products_offline) +:+
           " offline products have been found"; nl];;
    print ["Online products"; nl];;
    print_each products_online;;
    print ["offline products"; nl];;
    print_each products_offline.

(** The body of [is_online] once the session [api] exists. *)
Definition is_online_body (w : World) (api : Api) (products : list Product)
    : Py unit :=
  groups ← is_online_loop w api products [] [];
  is_online_report (fst groups) (snd groups).

Definition is_online (w : World) (products : list Product) : Py unit :=
  emit (EInvoke (CallIsOnline products));;
  user ← os_environ w "user";
  password ← os_environ w "password";
  api ← sentinel_api user password;
  is_online_body w api products.

(** ** [download] *)

Definition online_notice (t : string) : list string :=
  ["Product " +:+ t +:+ " is online."].

Definition offline_notice (t : string) : list string :=
  ["Product " +:+ t +:+ " is not online."].

Fixpoint download_loop (w : World) (api : Api) (products : list Product)
    (output : string) : Py unit :=
  match products with
  | [] => mret tt
  | row :: rest =>
      let date := beginposition row in
      let date_str := strftime w date "%Y-%m-%d" in
      meta ← api_get_product_odata w api (uuid row);
      (if meta_Online meta then
         print (online_notice (meta_title meta));;
         api_download w api (uuid row) output
       else
         print (offline_notice (meta_title meta)));;
      download_loop w api rest output
  end.

Definition download (w : World) (products : list Product) (output : string)
    : Py unit :=
  emit (EInvoke (CallDownload products output));;
  user ← os_environ w "user";
  password ← os_environ w "password";
  api ← sentinel_api user password;
  download_loop w api products output.

(** ** The command line *)

(** The namespace returned by [parser.parse_args()]. *)
Record Args : Type := {
  arg_outdir : option string;
  arg_footprint : option string;
  arg_start_date : option string;
  arg_end_date : option string;
  arg_product_type : option string;
  arg_pass_direction : option string;
  arg_download : bool;
  arg_online : bool
}.

(** [parser.error(msg)]: usage and message on stderr, then exit status 2. *)
Definition parser_error {A : Type} (msg : string) : Py A :=
  emit (EParserError msg);;
  raise (SystemExit 2).

Definition path_cwd (w : World) : Py string :=
  emit ECwd;;
  mret (cwd w).

(** The string held by an argument that has passed a truth test. *)
Definition str_of (v : option string) : string :=
  match v with
  | Some s => s
  | None => ""
  end.

Definition footprint_missing : string :=
  "Please provide a path to the footprint file(use option -aoi) to be used " +:+
  "as AOI for searching S1 data. The file format can be either Geojson or shapefile".

Definition dates_missing : string :=
  "Please provide a start and an end date to search for data".

Definition bad_product (v : option string) : list string :=
  ["The product specified " +:+ str_of v +:+ " does not exist." +:+
   " Valid products: GRD, SLC or OCN"].

Definition bad_orbit (v : option string) : list string :=
  ["The orbit specified " +:+ str_of v +:+ " does not exist." +:+
   " Valid orbits: ascending or descending"].

Definition bad_filters : list string :=
  ["Please make sure valid product types and valid orbits have been specified " +:+
   nl +:+ " Valid orbits: ascending or descending " +:+ nl +:+
   " valid products: GRD, SLC and OCN"].

Definition product_types : list string := ["GRD"; "SLC"; "OCN"].
Definition orbits : list string := ["ascending"; "descending"].

(** The chain that starts at the test on the two dates.  Its value is the
    binding of the module variable [products] when the chain ends: [None]
    when no arm assigned it. *)
Definition main_query (w : World) (args : Args)
    : Py (option (list Product)) :=
  let fp := str_of (arg_footprint args) in
  let s := str_of (arg_start_date args) in
  let e := str_of (arg_end_date args) in
  if negb (truthy (arg_start_date args)) || negb (truthy (arg_end_date args))
  then parser_error dates_missing
  else if truthy (arg_product_type args) &&
          negb (truthy (arg_pass_direction args)) then
    if negb (str_in (str_of (arg_product_type args)) product_types) then
      print (bad_product (arg_product_type args));;
      mret None
    else
      products ← query w fp s e (arg_product_type args) None;
      mret (Some products)
  else if truthy (arg_pass_direction args) &&
          negb (truthy (arg_product_type args)) then
    if negb (str_in (str_of (arg_pass_direction args)) orbits) then
      print (bad_orbit (arg_pass_direction args));;
      mret None
    else
      products ← query w fp s e None (arg_pass_direction args);
      mret (Some products)
  else if truthy (arg_pass_direction args) &&
          truthy (arg_product_type args) then
    if negb (str_in (str_of (arg_pass_direction args)) orbits) ||
       negb (str_in (str_of (arg_product_type args)) product_types) then
      print bad_filters;;
      mret None
    else
      products ← query w fp s e (arg_product_type args)
                   (arg_pass_direction args);
      mret (Some products)
  else
    products ← query w fp s e None None;
    mret (Some products).

(** Reading the variable [products]. *)
Definition read_products (products : option (list Product))
    : Py (list Product) :=
  match products with
  | Some ps => mret ps
  | None => raise (NameError "products")
  end.

Definition main (w : World) (args : Args) : Py unit :=
  (if negb (truthy (arg_footprint args))
   then parser_error footprint_missing
   else mret tt);;
  products ← main_query w args;
  (if arg_online args then
     ps ← read_products products;
     is_online w ps
   else mret tt);;
  if arg_download args && negb (truthy (arg_outdir args)) then
    path ← path_cwd w;
    ps ← read_products products;
    download w ps path
  else if arg_download args && truthy (arg_outdir args) then
    ps ← read_products products;
    download w ps (str_of (arg_outdir args))
  else mret tt.

(** ** A concrete world

    Credentials are set, the footprint file [aoi/AOI.geojson] exists, the
    date column accepts exactly the eight-digit calendar dates [YYYYMMDD]
    and the catalogue holds two scenes, the first online and the second
    offline.  A timestamp is the integer [YYYYMMDD], which orders dates as
    the calendar does. *)

Definition digit_of (c : ascii) : option Z :=
  let n := Z.of_nat (nat_of_ascii c) in
  if ((48 <=? n) && (n <=? 57))%Z then Some (n - 48)%Z else None.

Fixpoint digits_of (s : string) (acc : Z) : option Z :=
  match s with
  | EmptyString => Some acc
  | String c s' =>
      match digit_of c with
      | Some d => digits_of s' (10 * acc + d)%Z
      | None => None
      end
  end.

Definition leap_year (y : Z) : bool :=
  ((y mod 4 =? 0) && (negb (y mod 100 =? 0) || (y mod 400 =? 0)))%Z.

Definition days_in_month (y m : Z) : Z :=
  if (m =? 2)%Z then (if leap_year y then 29 else 28)%Z
  else if ((m =? 4) || (m =? 6) || (m =? 9) || (m =? 11))%Z then 30%Z
  else 31%Z.

Definition demo_to_datetime (s : string) : option Z :=
  if negb (Nat.eqb (String.length s) 8) then None
  else
    match digits_of s 0 with
    | Some n =>
        let y := (n / 10000)%Z in
        let m := ((n / 100) mod 100)%Z in
        let d := (n mod 100)%Z in
        if ((1678 <=? y) && (y <=? 2261) && (1 <=? m) && (m <=? 12) &&
            (1 <=? d) && (d <=? days_in_month y m))%Z
        then Some n else None
    | None => None
    end.

Definition two_digits (n : Z) : string :=
  (if (n <? 10)%Z then "0" else "") +:+ str_of_nat (Z.to_nat n).

Definition demo_strftime (t : Z) (fmt : string) : string :=
  str_of_nat (Z.to_nat (t / 10000)) +:+ "-" +:+
  two_digits ((t / 100) mod 100) +:+ "-" +:+ two_digits (t mod 100).

Definition demo_timestamp_str (t : Z) : string :=
  demo_strftime t "%Y-%m-%d" +:+ " 00:00:00".

Definition scene1 : Product :=
  {| title := "S1A_IW_GRDH_1SDV_20190203"; uuid := "uuid-1";
     beginposition := 20190203 |}.

Definition scene2 : Product :=
  {| title := "S1B_IW_GRDH_1SDV_20190209"; uuid := "uuid-2";
     beginposition := 20190209 |}.

Definition demo_odata (id : string) : option Meta :=
  if String.eqb id "uuid-1" then
    Some {| meta_title := title scene1; meta_Online := true |}
  else if String.eqb id "uuid-2" then
    Some {| meta_title := title scene2; meta_Online := false |}
  else None.

Definition demo_world : World := {|
  environ := <["user" := "alice"]> (<["password" := "secret"]> ∅);
  cwd := "/home/alice";
  read_geojson := fun path =>
    if String.eqb path "aoi/AOI.geojson" then Some "{polygon}" else None;
  geojson_to_wkt := fun g => Some "POLYGON((0 0,0 1,1 1,0 0))";
  to_datetime := demo_to_datetime;
  timestamp_str := demo_timestamp_str;
  strftime := demo_strftime;
  remote_search := fun _ _ _ _ => Some [scene1; scene2];
  remote_odata := fun _ _ id => demo_odata id;
  remote_download := fun _ _ _ _ => true
|}.

(** The same machine with no credentials in the environment. *)
Definition anonymous_world : World := {|
  environ := ∅;
  cwd := cwd demo_world;
  read_geojson := read_geojson demo_world;
  geojson_to_wkt := geojson_to_wkt demo_world;
  to_datetime := to_datetime demo_world;
  timestamp_str := timestamp_str demo_world;
  strftime := strftime demo_world;
  remote_search := remote_search demo_world;
  remote_odata := remote_odata demo_world;
  remote_download := remote_download demo_world
|}.

Definition no_args : Args := {|
  arg_outdir := None;
  arg_footprint := None;
  arg_start_date := None;
  arg_end_date := None;
  arg_product_type := None;
  arg_pass_direction := None;
  arg_download := false;
  arg_online := false
|}.

(** [-s 20190201 -e 20190816 -aoi aoi/AOI.geojson] *)
Definition demo_args : Args := {|
  arg_outdir := None;
  arg_footprint := Some "aoi/AOI.geojson";
  arg_start_date := Some "20190201";
  arg_end_date := Some "20190816";
  arg_product_type := None;
  arg_pass_direction := None;
  arg_download := false;
  arg_online := false
|}.

(** ** Vocabulary of the properties *)

(** Both credentials are set in the environment. *)
Definition credentials (w : World) (u p : string) : Prop :=
  environ w !! "user" = Some u /\ environ w !! "password" = Some p.

(** The session [sentinel_api] builds from them. *)
Definition session (u p : string) : Api :=
  {| api_user := u; api_password := p;
     api_url := "https://scihub.copernicus.eu/dhus/" |}.

(** What every operation emits up to and including its session. *)
Definition prelude (c : Call) (u p : string) : list Event :=
  [EInvoke c; EEnviron "user"; EEnviron "password"; ESentinelAPI (session u p)].

(** The sessions constructed during a run. *)
Definition sessions (t : list Event) : list Api :=
  flat_map (fun e => match e with ESentinelAPI a => [a] | _ => [] end) t.

(** The keyword arguments of each search issued. *)
Definition search_kwargs (t : list Event) : list (list (string * pyval)) :=
  flat_map (fun e => match e with ESearch _ k _ => [k] | _ => [] end) t.

(** The entries into [query]. *)
Definition queries (t : list Event) : list Call :=
  flat_map (fun e => match e with
                     | EInvoke (CallQuery a b c d e') =>
                         [CallQuery a b c d e']
                     | _ => []
                     end) t.

(** The entries into [download], with the products and the directory
    received. *)
Definition download_invocations (t : list Event)
    : list (list Product * string) :=
  flat_map (fun e => match e with
                     | EInvoke (CallDownload ps out) => [(ps, out)]
                     | _ => []
                     end) t.

(** Lines written by [print(prod)], the only one-argument calls of
    [print] in [is_online]. *)
Definition printed_titles (t : list Event) : list string :=
  flat_map (fun e => match e with EPrint [x] => [x] | _ => [] end) t.

(** An environment lookup. *)
Definition is_lookup (e : Event) : bool :=
  match e with
  | EEnviron _ => true
  | _ => false
  end.

(** Events other than an entry, an environment lookup or a new session. *)
Definition past_prelude (e : Event) : bool :=
  match e with
  | EEnviron _ | ESentinelAPI _ | EInvoke _ => false
  | _ => true
  end.

(** A status query that received an answer. *)
Definition answered (q : string * option Meta) : bool :=
  match snd q with
  | Some _ => true
  | None => false
  end.

(** Events other than an entry into [query] or a remote search. *)
Definition not_a_query (e : Event) : bool :=
  match e with
  | EInvoke (CallQuery _ _ _ _ _) | ESearch _ _ _ => false
  | _ => true
  end.

(** Events other than an entry into [download] with a directory that is
    not [output]. *)
Definition downloads_into (output : string) (e : Event) : bool :=
  match e with
  | EInvoke (CallDownload _ out) => String.eqb out output
  | _ => true
  end.

(** A download call that did not fail. *)
Definition download_ok (e : Event) : bool :=
  match e with
  | EDownload _ _ ok => ok
  | _ => true
  end.

(** A record paired with a status answer that says it is online. *)
Definition reported_online (ra : Product * option Meta) : bool :=
  match snd ra with
  | Some m => meta_Online m
  | None => false
  end.

(** From the specification: the notice for a record that is skipped
    because the catalogue reports it offline, and the line announcing a
    record that is about to be downloaded.  Each is one [print] call with
    one argument, naming the record by its title. *)
Definition skip_notice (title : string) : list string :=
  ["Product " +:+ title +:+ " is not online."].

Definition download_notice (title : string) : list string :=
  ["Product " +:+ title +:+ " is online."].

(** What [download] is to print for a record, given the answer to its
    status query: the skip notice for a record reported offline, the
    announcement for one reported online, nothing when the query raised. *)
Definition notice_for (ra : Product * option Meta) : list (list string) :=
  match snd ra with
  | Some m =>
      [if meta_Online m then download_notice (meta_title m)
       else skip_notice (meta_title m)]
  | None => []
  end.

(** *** Filters of [query] *)

(** A filter is present when the caller passed a value for it. *)
Definition present (v : option string) : bool := negb (is_None v).

(** A filter the script itself may pass on: absent, or a non-empty string. *)
Definition plain_filter (v : option string) : bool := is_None v || truthy v.

(** From the specification: the arm is named after the filters present
    (no filters / pass-direction only / product-type only / both). *)
Definition named_branch (prod_type pass_direction : option string) : Branch :=
  match present prod_type, present pass_direction with
  | false, false => NoFilters
  | false, true => PassDirectionOnly
  | true, false => ProductTypeOnly
  | true, true => BothFilters
  end.

(** From the specification: exactly the keywords of the filters present. *)
Definition present_keywords (prod_type pass_direction : option string)
    : list (string * pyval) :=
  (if present prod_type then [("producttype", to_pyval prod_type)] else []) ++
  (if present pass_direction then [("orbitdirection", to_pyval pass_direction)]
   else []).

(** The filter keywords [query] attaches in each arm. *)
Definition arm_keywords (b : Branch) (prod_type pass_direction : option string)
    : list (string * pyval) :=
  match b with
  | NoFilters => []
  | PassDirectionOnly => [("orbitdirection", to_pyval pass_direction)]
  | ProductTypeOnly => [("producttype", to_pyval prod_type)]
  | BothFilters =>
      [("producttype", to_pyval prod_type);
       ("orbitdirection", to_pyval pass_direction)]
  end.

(** From the specification: the one line [query] prints, stating the
    total count of matching records in decimal.  It is one [print] call
    with two arguments, the sentence and a line feed. *)
Definition count_line (n : nat) : list string :=
  [str_of_nat n +:+ " scenes have been found in total"; nl].

(** [query] takes the arm named after the filters that are present, issues
    one search carrying the keywords of exactly those filters, and prints
    the number of records the search returned. *)
Definition one_search_with_present_filters (w : World)
    (fp s e : string) (pt pd : option string) (h : list Event) : Prop :=
  query_branch pt pd = named_branch pt pd /\
  exists area resp,
    searches (trace (query w fp s e pt pd) h) =
      [ESearch area
         ([("date", VTuple [s; e]); ("platformname", VStr "Sentinel-1")] ++
          present_keywords pt pd) resp] /\
    match resp with
    | Some ps =>
        outcome (query w fp s e pt pd) h = Return ps /\
        printed (trace (query w fp s e pt pd) h) = [count_line (length ps)]
    | None =>
        outcome (query w fp s e pt pd) h = Raise (ExternalError "query") /\
        printed (trace (query w fp s e pt pd) h) = []
    end.

(** *** Validation of the filters on the command line *)

(** The footprint and both dates pass the tests at the top of the script. *)
Definition required_present (args : Args) : bool :=
  truthy (arg_footprint args) && truthy (arg_start_date args) &&
  truthy (arg_end_date args).

(** A value was supplied and is not in the list of valid ones. *)
Definition invalid_value (valid : list string) (v : option string) : bool :=
  match v with
  | Some s => negb (str_in s valid)
  | None => false
  end.

Definition invalid_filter (args : Args) : bool :=
  invalid_value product_types (arg_product_type args) ||
  invalid_value orbits (arg_pass_direction args).

(** A non-empty value was supplied and is not in the list of valid ones. *)
Definition rejected_value (valid : list string) (v : option string) : bool :=
  truthy v && negb (str_in (str_of v) valid).

Definition rejected_filter (args : Args) : bool :=
  rejected_value product_types (arg_product_type args) ||
  rejected_value orbits (arg_pass_direction args).

(** The validation step prints one message and returns with [products]
    unbound; the script then fails with a [NameError] exactly when a later
    stage is requested, and no operation is ever entered. *)
Definition validation_leaves_products_unbound (w : World) (args : Args)
    (h : list Event) : Prop :=
  exists msg,
    main_query w args h = (Return None, [EPrint msg]) /\
    printed (trace (main w args) h) = [msg] /\
    invocations (trace (main w args) h) = [] /\
    remote_calls (trace (main w args) h) = [] /\
    outcome (main w args) h =
      if arg_online args || arg_download args
      then Raise (NameError "products") else Return tt.

(** No entry into [query] and no search in a run of the script. *)
Definition never_queries (w : World) (args : Args) (h : list Event) : Prop :=
  queries (trace (main w args) h) = [] /\
  searches (trace (main w args) h) = [].

(** *** Output directory of the downloader *)

(** The path the command line names: the value of [--outdir] when the
    option was given, the current directory otherwise. *)
Definition given_outdir (w : World) (args : Args) : string :=
  match arg_outdir args with
  | Some o => o
  | None => cwd w
  end.

(** The same with an empty [--outdir] counted as not given. *)
Definition chosen_outdir (w : World) (args : Args) : string :=
  if truthy (arg_outdir args) then str_of (arg_outdir args) else cwd w.

(** Every entry into [download] receives [output]; and when the query
    stage bound [products] and the online check, if requested, completed,
    [download] is entered exactly once, with those products. *)
Definition downloader_receives (output : string) (w : World) (args : Args)
    (h : list Event) : Prop :=
  (forall c, In c (download_invocations (trace (main w args) h)) ->
             snd c = output) /\
  (forall ps t1,
      truthy (arg_footprint args) = true ->
      main_query w args h = (Return (Some ps), t1) ->
      (arg_online args = true ->
       outcome (is_online w ps) (h ++ t1) = Return tt) ->
      download_invocations (trace (main w args) h) = [(ps, output)]).

(** [-s 20190201 -e 20190816 -aoi aoi/AOI.geojson -t ''] *)
Definition empty_type_args : Args := {|
  arg_outdir := None;
  arg_footprint := Some "aoi/AOI.geojson";
  arg_start_date := Some "20190201";
  arg_end_date := Some "20190816";
  arg_product_type := Some "";
  arg_pass_direction := None;
  arg_download := false;
  arg_online := false
|}.

(** [-s 20190201 -e 20190816 -aoi aoi/AOI.geojson -t XYZ -d --online] *)
Definition bad_type_args : Args := {|
  arg_outdir := None;
  arg_footprint := Some "aoi/AOI.geojson";
  arg_start_date := Some "20190201";
  arg_end_date := Some "20190816";
  arg_product_type := Some "XYZ";
  arg_pass_direction := None;
  arg_download := true;
  arg_online := true
|}.

(** [-s 20190201 -e 20190816 -aoi aoi/AOI.geojson -d -o ''] *)
Definition empty_outdir_args : Args := {|
  arg_outdir := Some "";
  arg_footprint := Some "aoi/AOI.geojson";
  arg_start_date := Some "20190201";
  arg_end_date := Some "20190816";
  arg_product_type := None;
  arg_pass_direction := None;
  arg_download := true;
  arg_online := false
|}.

(** [-s 20190201 -e 20190816 -aoi aoi/AOI.geojson -d -o /data/s1 --online] *)
Definition outdir_args : Args := {|
  arg_outdir := Some "/data/s1";
  arg_footprint := Some "aoi/AOI.geojson";
  arg_start_date := Some "20190201";
  arg_end_date := Some "20190816";
  arg_product_type := None;
  arg_pass_direction := None;
  arg_download := true;
  arg_online := true
|}.

(** ** Vocabulary of the further properties *)

(** An optional argument as the script passes it on to [query]: an empty
    value counts as not given. *)
Definition effective (v : option string) : option string :=
  if truthy v then v else None.

(** Absent, or one of the listed values. *)
Definition valid_value (valid : list string) (v : option string) : bool :=
  match v with
  | Some s => str_in s valid
  | None => true
  end.

(** An event that is not a remote call that raised. *)
Definition remote_ok (e : Event) : bool :=
  match e with
  | ESearch _ _ None | EOdata _ None | EDownload _ _ false => false
  | _ => true
  end.

(** A status query, whatever its answer. *)
Definition is_status_query (e : Event) : bool :=
  match e with
  | EOdata _ _ => true
  | _ => false
  end.

(** A status query answered "online", and one answered "offline". *)
Definition said_online (q : string * option Meta) : bool :=
  match snd q with
  | Some m => meta_Online m
  | None => false
  end.

Definition said_offline (q : string * option Meta) : bool :=
  match snd q with
  | Some m => negb (meta_Online m)
  | None => false
  end.

(** An event other than the construction of a session that is not the one
    made of the credentials in the environment and the hub address. *)
Definition session_from_environment (w : World) (e : Event) : bool :=
  match e with
  | ESentinelAPI a =>
      match environ w !! "user", environ w !! "password" with
      | Some u, Some p =>
          String.eqb (api_user a) u && String.eqb (api_password a) p &&
          String.eqb (api_url a) "https://scihub.copernicus.eu/dhus/"
      | _, _ => false
      end
  | _ => true
  end.

(** An event other than a call of [parser.error]. *)
Definition not_parser_error (e : Event) : bool :=
  match e with
  | EParserError _ => false
  | _ => true
  end.

(** Every exception a computation can end with, from any history,
    satisfies [P]. *)
Definition raises {A : Type} (P : Exn -> bool) (m : Py A) : Prop :=
  forall h e, outcome m h = Raise e -> P e = true.

(** The exceptions that come out of the catalogue client or the footprint
    reader. *)
Definition is_external (e : Exn) : bool :=
  match e with
  | ExternalError _ => true
  | _ => false
  end.

(** The message the validation step prints for the arguments it rejects. *)
Definition validation_message (args : Args) : list string :=
  if truthy (arg_product_type args) && negb (truthy (arg_pass_direction args))
  then bad_product (arg_product_type args)
  else if truthy (arg_pass_direction args) &&
          negb (truthy (arg_product_type args))
  then bad_orbit (arg_pass_direction args)
  else bad_filters.

(** What [main] does once the chain on the filters has ended with
    [products] bound or not: the online check and the download. *)
Definition after_query (w : World) (args : Args)
    (products : option (list Product)) : Py unit :=
  (if arg_online args then
     ps ← read_products products;
     is_online w ps
   else mret tt);;
  if arg_download args && negb (truthy (arg_outdir args)) then
    path ← path_cwd w;
    ps ← read_products products;
    download w ps path
  else if arg_download args && truthy (arg_outdir args) then
    ps ← read_products products;
    download w ps (str_of (arg_outdir args))
  else mret tt.

(** The lines [is_online] prints for the two groups. *)
Definition all_online_line (n : nat) : list string :=
  [" All products requested(" +:+ str_of_nat n +:+ ") are online"; nl].

Definition all_offline_line (n : nat) : list string :=
  ["All products requested (" +:+ str_of_nat n +:+ ") are offline"; nl].

Definition mixed_line (n_online n_offline : nat) : list string :=
  [str_of_nat n_online +:+ " online and " +:+ str_of_nat n_offline +:+
   " offline products have been found"; nl].

(** A world like [demo_world] whose catalogue answers status queries with
    [odata] and whose downloads all succeed or all fail. *)
Definition world_with (odata : list Event -> Api -> string -> option Meta)
    (download_succeeds : bool) : World := {|
  environ := environ demo_world;
  cwd := cwd demo_world;
  read_geojson := read_geojson demo_world;
  geojson_to_wkt := geojson_to_wkt demo_world;
  to_datetime := to_datetime demo_world;
  timestamp_str := timestamp_str demo_world;
  strftime := strftime demo_world;
  remote_search := remote_search demo_world;
  remote_odata := odata;
  remote_download := fun _ _ _ _ => download_succeeds
|}.

Definition all_online_world : World :=
  world_with (fun _ _ id => Some {| meta_title := id; meta_Online := true |})
             true.

Definition all_offline_world : World :=
  world_with (fun _ _ id => Some {| meta_title := id; meta_Online := false |})
             true.

(** Downloads fail. *)
Definition broken_download_world : World :=
  world_with (fun _ _ id => demo_odata id) false.

(** A scene the catalogue of [demo_world] does not know. *)
Definition scene3 : Product :=
  {| title := "S1A_IW_GRDH_1SDV_20190215"; uuid := "uuid-3";
     beginposition := 20190215 |}.

(** [-s 20190201 -e 20190816 -aoi aoi/AOI.geojson -t GRD -p descending
    --online] *)
Definition filtered_args : Args := {|
  arg_outdir := None;
  arg_footprint := Some "aoi/AOI.geojson";
  arg_start_date := Some "20190201";
  arg_end_date := Some "20190816";
  arg_product_type := Some "GRD";
  arg_pass_direction := Some "descending";
  arg_download := false;
  arg_online := true
|}.

(** * Properties *)

(** ** Sample runs in the concrete world *)

Example run_bad_product_type :
  main demo_world bad_type_args [] =
    (Raise (NameError "products"),
     [EPrint ["The product specified XYZ does not exist. Valid products: GRD, SLC or OCN"]]).
Proof. reflexivity. Qed.

Example run_reversed_dates :
  outcome (query demo_world "aoi/AOI.geojson" "20190816" "20190201" None None)
          [] =
    Raise (AssertionError
      "The start date 2019-08-16 00:00:00 must be smaller than the end date 2019-02-01 00:00:00").
Proof. reflexivity. Qed.

Example run_online_check :
  printed (trace (is_online demo_world [scene1; scene2]) []) =
    [["1 online and 1 offline products have been found"; nl];
     ["Online products"; nl];
     ["S1A_IW_GRDH_1SDV_20190203"];
     ["offline products"; nl];
     ["S1B_IW_GRDH_1SDV_20190209"]].
Proof. reflexivity. Qed.

Example run_download :
  download_calls (trace (main demo_world outdir_args) []) =
    [("uuid-1", "/data/s1")] /\
  outcome (main demo_world outdir_args) [] = Return tt.
Proof. split; reflexivity. Qed.

Example run_without_credentials :
  main anonymous_world demo_args [] =
    (Raise (KeyError "user"),
     [EInvoke (CallQuery "aoi/AOI.geojson" "20190201" "20190816" None None);
      EEnviron "user"]).
Proof. reflexivity. Qed.

Example dates_accepted :
  demo_to_datetime "20200229" = Some 20200229%Z /\
  demo_to_datetime "20190229" = None /\
  demo_to_datetime "2019-02-01" = None.
Proof. repeat split; reflexivity. Qed.

(** ** Running a computation *)

Lemma run_bind {A B : Type} (m : Py A) (k : A -> Py B) (h : list Event) :
  (m ≫= k) h =
  match m h with
  | (Return a, t) => (fst (k a (h ++ t)), t ++ snd (k a (h ++ t)))
  | (Raise e, t) => (Raise e, t)
  end.
Proof.
  unfold mbind, Py_bind.
  destruct (m h) as [[a | e] t]; [destruct (k a (h ++ t)) |]; reflexivity.
Qed.

Lemma run_bind_Return {A B : Type} (m : Py A) (k : A -> Py B) h a t :
  m h = (Return a, t) ->
  (m ≫= k) h = (outcome (k a) (h ++ t), t ++ trace (k a) (h ++ t)).
Proof. intros Hm. rewrite run_bind, Hm. reflexivity. Qed.

Lemma run_bind_Raise {A B : Type} (m : Py A) (k : A -> Py B) h e t :
  m h = (Raise e, t) -> (m ≫= k) h = (Raise e, t).
Proof. intros Hm. rewrite run_bind, Hm. reflexivity. Qed.

Lemma run_eta {A : Type} (m : Py A) (h : list Event) :
  m h = (outcome m h, trace m h).
Proof. unfold outcome, trace. destruct (m h); reflexivity. Qed.

Lemma trace_bind {A B : Type} (m : Py A) (k : A -> Py B) (h : list Event) :
  trace (m ≫= k) h =
  trace m h ++
  match outcome m h with
  | Return a => trace (k a) (h ++ trace m h)
  | Raise _ => []
  end.
Proof.
  unfold trace, outcome. rewrite run_bind.
  destruct (m h) as [[a | e] t]; cbn; [reflexivity | now rewrite app_nil_r].
Qed.

Lemma outcome_bind {A B : Type} (m : Py A) (k : A -> Py B) (h : list Event) :
  outcome (m ≫= k) h =
  match outcome m h with
  | Return a => outcome (k a) (h ++ trace m h)
  | Raise e => Raise e
  end.
Proof.
  unfold trace, outcome. rewrite run_bind.
  destruct (m h) as [[a | e] t]; reflexivity.
Qed.

(** ** Events a computation can emit *)

Lemma emits_ret {A : Type} (P : Event -> bool) (a : A) : emits P (mret a).
Proof. intros h. reflexivity. Qed.

Lemma emits_raise {A : Type} (P : Event -> bool) (e : Exn) :
  emits P (raise e : Py A).
Proof. intros h. reflexivity. Qed.

Lemma emits_emit (P : Event -> bool) (e : Event) :
  P e = true -> emits P (emit e).
Proof. intros He h. cbn. now rewrite He. Qed.

Lemma emits_bind {A B : Type} (P : Event -> bool) (m : Py A) (k : A -> Py B) :
  emits P m -> (forall a, emits P (k a)) -> emits P (m ≫= k).
Proof.
  intros Hm Hk h. rewrite trace_bind, forallb_app, Hm. cbn.
  destruct (outcome m h); [apply Hk | reflexivity].
Qed.

Lemma emits_api_query (P : Event -> bool) w api area kwargs :
  (forall r, P (ESearch area kwargs r) = true) ->
  emits P (api_query w api area kwargs).
Proof. intros HP h. cbn. now rewrite HP. Qed.

Lemma emits_api_get_product_odata (P : Event -> bool) w api id :
  (forall r, P (EOdata id r) = true) ->
  emits P (api_get_product_odata w api id).
Proof. intros HP h. cbn. now rewrite HP. Qed.

Lemma emits_api_download (P : Event -> bool) w api id dir :
  (forall ok, P (EDownload id dir ok) = true) ->
  emits P (api_download w api id dir).
Proof. intros HP h. cbn. now rewrite HP. Qed.

(** Splits a goal [emits P m] along the structure of [m]; what is left are
    the side conditions [P e = true] that do not hold by computation. *)
Ltac emits_step :=
  match goal with
  | |- emits _ (mbind _ _) => apply emits_bind; [| intros ?]
  | |- emits _ (mret _) => apply emits_ret
  | |- emits _ (raise _) => apply emits_raise
  | |- emits _ (emit _) => apply emits_emit; try reflexivity
  | |- emits _ (print _) => apply emits_emit; try reflexivity
  | |- emits _ (api_query _ _ _ _) =>
      apply emits_api_query; try (intros ?; reflexivity)
  | |- emits _ (api_get_product_odata _ _ _) =>
      apply emits_api_get_product_odata; try (intros ?; reflexivity)
  | |- emits _ (api_download _ _ _ _) =>
      apply emits_api_download; try (intros ?; reflexivity)
  | |- emits _ (match ?x with _ => _ end) => destruct x
  | |- emits _ (os_environ _ _) => unfold os_environ
  | |- emits _ (sentinel_api _ _) => unfold sentinel_api
  | |- emits _ (call_read_geojson _ _) => unfold call_read_geojson
  | |- emits _ (call_geojson_to_wkt _ _) => unfold call_geojson_to_wkt
  | |- emits _ (pd_to_datetime _ _ _) => unfold pd_to_datetime
  | |- emits _ (py_assert _ _) => unfold py_assert
  | |- emits _ (parser_error _) => unfold parser_error
  | |- emits _ (path_cwd _) => unfold path_cwd
  | |- emits _ (read_products _) => unfold read_products
  end.

Ltac emits_auto := repeat emits_step.

Lemma forallb_flat_map_nil {B : Type} (P : Event -> bool)
    (f : Event -> list B) (t : list Event) :
  (forall e, P e = true -> f e = []) ->
  forallb P t = true -> flat_map f t = [].
Proof.
  intros Hf. induction t as [| e t IH]; cbn; [reflexivity |].
  intros [He Ht]%andb_prop. now rewrite (Hf e He), IH.
Qed.

Lemma forallb_filter_nil (P Q : Event -> bool) (t : list Event) :
  (forall e, P e = true -> Q e = false) ->
  forallb P t = true -> List.filter Q t = [].
Proof.
  intros Hf. induction t as [| e t IH]; cbn; [reflexivity |].
  intros [He Ht]%andb_prop. now rewrite (Hf e He), IH.
Qed.

Lemma emits_weaken {A : Type} (P Q : Event -> bool) (m : Py A) :
  (forall e, P e = true -> Q e = true) -> emits P m -> emits Q m.
Proof.
  intros HPQ Hm h. specialize (Hm h). revert Hm.
  induction (trace m h) as [| e t IH]; cbn; [reflexivity |].
  intros [He Ht]%andb_prop. now rewrite (HPQ e He), IH.
Qed.

(** ** Strings *)

Lemma append_nil_l (s : string) : "" +:+ s = s.
Proof. reflexivity. Qed.

Lemma append_cons (c : ascii) (a s : string) :
  String c a +:+ s = String c (a +:+ s).
Proof. reflexivity. Qed.

Lemma append_assoc (a b c : string) : (a +:+ b) +:+ c = a +:+ b +:+ c.
Proof.
  induction a as [| x a IH]; [reflexivity |].
  rewrite !append_cons. now rewrite IH.
Qed.

Lemma prefix_refl (s : string) : String.prefix s s = true.
Proof.
  induction s as [| c s IH]; simpl; [reflexivity |].
  destruct (Ascii.ascii_dec c c); [exact IH | congruence].
Qed.

Lemma prefix_app (a b : string) : String.prefix a (a +:+ b) = true.
Proof.
  induction a as [| c a IH]; [now destruct b |].
  rewrite append_cons. simpl.
  destruct (Ascii.ascii_dec c c); [exact IH | congruence].
Qed.

Lemma contains_prefix (sub s : string) :
  String.prefix sub s = true -> contains sub s = true.
Proof. intros H. destruct s; cbn [contains]; rewrite H; reflexivity. Qed.

Lemma contains_append (a sub s : string) :
  contains sub s = true -> contains sub (a +:+ s) = true.
Proof.
  intros H. induction a as [| c a IH]; [exact H |].
  rewrite append_cons. cbn [contains]. rewrite IH. apply orb_true_r.
Qed.

Lemma date_order_message_names_dates (w : World) (t0 t1 : Z) :
  contains (timestamp_str w t0) (date_order_message w t0 t1) = true /\
  contains (timestamp_str w t1) (date_order_message w t0 t1) = true.
Proof.
  unfold date_order_message. split.
  - apply contains_append, contains_prefix, prefix_app.
  - rewrite <- !append_assoc. apply contains_append, contains_prefix, prefix_refl.
Qed.

(** ** Credentials and session *)

(** The three operations open in the same way; [body] is what follows. *)
Lemma with_session_run {A : Type} (w : World) (c : Call) (body : Api -> Py A)
    (h : list Event) :
  (emit (EInvoke c);;
   user ← os_environ w "user";
   password ← os_environ w "password";
   api ← sentinel_api user password;
   body api) h =
  match environ w !! "user", environ w !! "password" with
  | None, _ => (Raise (KeyError "user"), [EInvoke c; EEnviron "user"])
  | Some u, None =>
      (Raise (KeyError "password"),
       [EInvoke c; EEnviron "user"; EEnviron "password"])
  | Some u, Some p =>
      (outcome (body (session u p)) (h ++ prelude c u p),
       prelude c u p ++ trace (body (session u p)) (h ++ prelude c u p))
  end.
Proof.
  unfold os_environ, sentinel_api, emit, raise, mbind, Py_bind, mret, Py_ret.
  cbn. destruct (environ w !! "user") as [u |]; cbn; [| reflexivity].
  destruct (environ w !! "password") as [p |]; cbn; [| reflexivity].
  rewrite <- !app_assoc. cbn. fold (session u p).
  unfold outcome, trace, prelude.
  destruct (body _ _) as [r t]. reflexivity.
Qed.

Lemma query_run w fp s e pt pd h u p :
  credentials w u p ->
  let c := CallQuery fp s e pt pd in
  query w fp s e pt pd h =
  (outcome (query_body w (session u p) fp s e pt pd) (h ++ prelude c u p),
   prelude c u p ++
   trace (query_body w (session u p) fp s e pt pd) (h ++ prelude c u p)).
Proof.
  intros [Hu Hp] c. unfold query. rewrite with_session_run, Hu, Hp.
  reflexivity.
Qed.

Lemma is_online_run w products h u p :
  credentials w u p ->
  let c := CallIsOnline products in
  is_online w products h =
  (outcome (is_online_body w (session u p) products) (h ++ prelude c u p),
   prelude c u p ++
   trace (is_online_body w (session u p) products) (h ++ prelude c u p)).
Proof.
  intros [Hu Hp] c. unfold is_online. rewrite with_session_run, Hu, Hp.
  reflexivity.
Qed.

Lemma download_run w products output h u p :
  credentials w u p ->
  let c := CallDownload products output in
  download w products output h =
  (outcome (download_loop w (session u p) products output) (h ++ prelude c u p),
   prelude c u p ++
   trace (download_loop w (session u p) products output) (h ++ prelude c u p)).
Proof.
  intros [Hu Hp] c. unfold download. rewrite with_session_run, Hu, Hp.
  reflexivity.
Qed.

(** Without credentials an operation stops at the lookup that fails. *)
Lemma no_credentials_run {A : Type} (w : World) (c : Call)
    (body : Api -> Py A) (h : list Event) :
  environ w !! "user" = None \/ environ w !! "password" = None ->
  exists key lookups,
    (emit (EInvoke c);;
     user ← os_environ w "user";
     password ← os_environ w "password";
     api ← sentinel_api user password;
     body api) h = (Raise (KeyError key), EInvoke c :: lookups) /\
    (key = "user" \/ key = "password") /\
    forallb is_lookup lookups = true.
Proof.
  intros H. rewrite with_session_run.
  destruct (environ w !! "user") as [u |].
  - destruct H as [H | H]; [discriminate |]. rewrite H.
    exists "password", [EEnviron "user"; EEnviron "password"]. auto.
  - exists "user", [EEnviron "user"]. auto.
Qed.

(** ** The body of [query] *)

Lemma query_body_emits (P : Event -> bool) w api fp s e pt pd :
  P (EReadGeojson fp) = true ->
  (forall a k r, P (ESearch a k r) = true) ->
  (forall l, P (EPrint l) = true) ->
  emits P (query_body w api fp s e pt pd).
Proof.
  intros H1 H2 H3. unfold query_body.
  emits_auto; auto.
Qed.

Lemma query_body_unordered w api fp s e pt pd h t0 t1 :
  to_datetime w s = Some t0 -> to_datetime w e = Some t1 -> (t1 <= t0)%Z ->
  remote_calls (trace (query_body w api fp s e pt pd) h) = [] /\
  (exists x, outcome (query_body w api fp s e pt pd) h = Raise x) /\
  forall g f,
    read_geojson w fp = Some g -> geojson_to_wkt w g = Some f ->
    query_body w api fp s e pt pd h =
    (Raise (AssertionError (date_order_message w t0 t1)), [EReadGeojson fp]).
Proof.
  intros Hs He Hle.
  assert (Hlt : (t0 <? t1)%Z = false) by now apply Z.ltb_ge.
  unfold query_body, outcome, trace, call_read_geojson, call_geojson_to_wkt,
    pd_to_datetime, py_assert, emit, raise, mbind, Py_bind, mret, Py_ret.
  cbn. rewrite Hs, He.
  destruct (read_geojson w fp) as [g |] eqn:Hg; cbn.
  - destruct (geojson_to_wkt w g) as [f |] eqn:Hf; cbn.
    + rewrite Hlt. cbn. repeat split; eauto.
    + repeat split; eauto. intros g' f' [= <-] Hf'. congruence.
  - repeat split; eauto. intros g' f' [=].
Qed.

Lemma query_body_ordered w api fp s e pt pd h g f t0 t1 :
  read_geojson w fp = Some g -> geojson_to_wkt w g = Some f ->
  to_datetime w s = Some t0 -> to_datetime w e = Some t1 -> (t0 < t1)%Z ->
  let kwargs := [("date", VTuple [s; e]); ("platformname", VStr "Sentinel-1")]
                ++ arm_keywords (query_branch pt pd) pt pd in
  let resp := remote_search w (h ++ [EReadGeojson fp]) api f kwargs in
  query_body w api fp s e pt pd h =
  match resp with
  | Some ps =>
      (Return ps, [EReadGeojson fp; ESearch f kwargs resp;
                   EPrint (scenes_found (length ps))])
  | None => (Raise (ExternalError "query"),
             [EReadGeojson fp; ESearch f kwargs resp])
  end.
Proof.
  intros Hg Hf Hs He Hlt.
  assert (Hltb : (t0 <? t1)%Z = true) by now apply Z.ltb_lt.
  unfold query_body, call_read_geojson, call_geojson_to_wkt,
    pd_to_datetime, py_assert, api_query, print, emit, raise,
    mbind, Py_bind, mret, Py_ret.
  cbn. rewrite Hg. cbn. rewrite Hf. cbn. rewrite Hs, He. cbn.
  rewrite Hltb. cbn. rewrite !app_nil_r.
  destruct (query_branch pt pd); cbn;
    match goal with
    | |- context [remote_search ?w ?h ?a ?f ?k] =>
        destruct (remote_search w h a f k); reflexivity
    end.
Qed.

Lemma plain_filters_branch (pt pd : option string) :
  plain_filter pt = true -> plain_filter pd = true ->
  query_branch pt pd = named_branch pt pd /\
  arm_keywords (query_branch pt pd) pt pd = present_keywords pt pd.
Proof.
  unfold plain_filter, query_branch, named_branch, present_keywords, present.
  destruct pt as [a |], pd as [b |]; cbn; intros Ha Hb;
    rewrite ?Ha, ?Hb; cbn; auto.
Qed.

(** ** What each operation can emit *)

Lemma is_online_loop_emits (P : Event -> bool) w api products :
  (forall id r, P (EOdata id r) = true) ->
  forall on off, emits P (is_online_loop w api products on off).
Proof.
  intros HP. induction products as [| row rest IH]; intros on off; simpl.
  - apply emits_ret.
  - apply emits_bind; [emits_auto; auto |].
    intros meta. destruct (meta_Online meta); apply IH.
Qed.

Lemma print_each_emits (P : Event -> bool) (l : list string) :
  (forall a, P (EPrint a) = true) -> emits P (print_each l).
Proof.
  intros HP. induction l as [| x l IH]; simpl.
  - apply emits_ret.
  - apply emits_bind; [apply emits_emit, HP | intros _; exact IH].
Qed.

Lemma is_online_report_emits (P : Event -> bool) (on off : list string) :
  (forall a, P (EPrint a) = true) -> emits P (is_online_report on off).
Proof.
  intros HP. unfold is_online_report.
  repeat first [ apply print_each_emits; assumption
               | emits_step; auto ].
Qed.

Lemma is_online_body_emits (P : Event -> bool) w api products :
  (forall id r, P (EOdata id r) = true) ->
  (forall a, P (EPrint a) = true) ->
  emits P (is_online_body w api products).
Proof.
  intros H1 H2. unfold is_online_body. apply emits_bind.
  - now apply is_online_loop_emits.
  - intros groups. now apply is_online_report_emits.
Qed.

Lemma download_loop_emits (P : Event -> bool) w api products output :
  (forall id r, P (EOdata id r) = true) ->
  (forall a, P (EPrint a) = true) ->
  (forall id ok, P (EDownload id output ok) = true) ->
  emits P (download_loop w api products output).
Proof.
  intros H1 H2 H3. induction products as [| row rest IH]; simpl.
  - apply emits_ret.
  - apply emits_bind; [emits_auto; auto |]. intros meta.
    apply emits_bind; [| intros _; exact IH].
    emits_auto; auto.
Qed.

Lemma query_emits (P : Event -> bool) w fp s e pt pd :
  P (EInvoke (CallQuery fp s e pt pd)) = true ->
  (forall k, P (EEnviron k) = true) ->
  (forall a, P (ESentinelAPI a) = true) ->
  P (EReadGeojson fp) = true ->
  (forall a k r, P (ESearch a k r) = true) ->
  (forall l, P (EPrint l) = true) ->
  emits P (query w fp s e pt pd).
Proof.
  intros H1 H2 H3 H4 H5 H6. unfold query.
  repeat first [ apply query_body_emits; assumption
               | emits_step; auto ].
Qed.

Lemma is_online_emits (P : Event -> bool) w products :
  P (EInvoke (CallIsOnline products)) = true ->
  (forall k, P (EEnviron k) = true) ->
  (forall a, P (ESentinelAPI a) = true) ->
  (forall id r, P (EOdata id r) = true) ->
  (forall l, P (EPrint l) = true) ->
  emits P (is_online w products).
Proof.
  intros H1 H2 H3 H4 H5. unfold is_online.
  repeat first [ apply is_online_body_emits; assumption
               | emits_step; auto ].
Qed.

Lemma download_emits (P : Event -> bool) w products output :
  P (EInvoke (CallDownload products output)) = true ->
  (forall k, P (EEnviron k) = true) ->
  (forall a, P (ESentinelAPI a) = true) ->
  (forall id r, P (EOdata id r) = true) ->
  (forall l, P (EPrint l) = true) ->
  (forall id ok, P (EDownload id output ok) = true) ->
  emits P (download w products output).
Proof.
  intros H1 H2 H3 H4 H5 H6. unfold download.
  repeat first [ apply download_loop_emits; assumption
               | emits_step; auto ].
Qed.

Lemma sessions_past_prelude (t : list Event) :
  forallb past_prelude t = true -> sessions t = [].
Proof.
  apply forallb_flat_map_nil. intros [] H; try reflexivity; discriminate.
Qed.

(** ** Date order *)

(** C1.  When the start date is not earlier than the end date, [query]
    raises without having issued any remote call; and when the credentials
    and the footprint are available, what it raises is the assertion
    failure, whose message contains both dates. *)
Theorem query_rejects_unordered_dates w fp s e pt pd h t0 t1 :
  to_datetime w s = Some t0 -> to_datetime w e = Some t1 -> (t1 <= t0)%Z ->
  remote_calls (trace (query w fp s e pt pd) h) = [] /\
  (exists x, outcome (query w fp s e pt pd) h = Raise x) /\
  (forall u p g f,
      credentials w u p ->
      read_geojson w fp = Some g -> geojson_to_wkt w g = Some f ->
      outcome (query w fp s e pt pd) h =
        Raise (AssertionError (date_order_message w t0 t1))) /\
  contains (timestamp_str w t0) (date_order_message w t0 t1) = true /\
  contains (timestamp_str w t1) (date_order_message w t0 t1) = true.
Proof.
  intros Hs He Hle.
  split; [| split; [| split; [| apply date_order_message_names_dates]]].
  - unfold query, outcome, trace. rewrite with_session_run.
    destruct (environ w !! "user") as [u |]; [| reflexivity].
    destruct (environ w !! "password") as [p |]; [| reflexivity].
    cbn [snd]. unfold remote_calls. rewrite List.filter_app. cbn.
    apply (query_body_unordered w (session u p) fp s e pt pd _ t0 t1 Hs He Hle).
  - unfold query, outcome. rewrite with_session_run.
    destruct (environ w !! "user") as [u |]; [| eauto].
    destruct (environ w !! "password") as [p |]; [| eauto].
    apply (query_body_unordered w (session u p) fp s e pt pd _ t0 t1 Hs He Hle).
  - intros u p g f Hc Hg Hf. unfold outcome at 1.
    rewrite (query_run w fp s e pt pd h u p Hc). cbn [fst]. unfold outcome.
    destruct (query_body_unordered w (session u p) fp s e pt pd
                (h ++ prelude (CallQuery fp s e pt pd) u p) t0 t1 Hs He Hle)
      as (_ & _ & H).
    now rewrite (H g f Hg Hf).
Qed.

Lemma query_rejects_unordered_dates_witness :
  remote_calls
    (trace (query demo_world "aoi/AOI.geojson" "20190816" "20190201"
                  None (Some "ascending")) []) = [] /\
  outcome (query demo_world "aoi/AOI.geojson" "20190816" "20190201"
                 None (Some "ascending")) [] =
    Raise (AssertionError
      "The start date 2019-08-16 00:00:00 must be smaller than the end date 2019-02-01 00:00:00").
Proof.
  pose proof (query_rejects_unordered_dates demo_world "aoi/AOI.geojson"
                "20190816" "20190201" None (Some "ascending") []
                20190816 20190201 eq_refl eq_refl ltac:(lia)) as (H1 & _ & H3 & _).
  split; [exact H1 |].
  exact (H3 "alice" "secret" "{polygon}" "POLYGON((0 0,0 1,1 1,0 0))"
            (conj eq_refl eq_refl) eq_refl eq_refl).
Defined.

(** ** Credentials *)

(** C10.  With ['user'] or ['password'] missing from the environment, each
    of [query], [is_online] and [download] raises [KeyError] for the missing
    name, whatever its arguments, having done nothing but look names up in
    the environment: no date was parsed and no remote call made.  With both
    set, each operation looks both up and builds exactly one session, its
    own, from them. *)
Theorem credentials_looked_up_by_each_operation w fp s e pt pd products output h :
  (environ w !! "user" = None \/ environ w !! "password" = None ->
   (exists key lookups,
       query w fp s e pt pd h =
         (Raise (KeyError key), EInvoke (CallQuery fp s e pt pd) :: lookups) /\
       (key = "user" \/ key = "password") /\
       forallb is_lookup lookups = true) /\
   (exists key lookups,
       is_online w products h =
         (Raise (KeyError key), EInvoke (CallIsOnline products) :: lookups) /\
       (key = "user" \/ key = "password") /\
       forallb is_lookup lookups = true) /\
   (exists key lookups,
       download w products output h =
         (Raise (KeyError key),
          EInvoke (CallDownload products output) :: lookups) /\
       (key = "user" \/ key = "password") /\
       forallb is_lookup lookups = true)) /\
  (forall u p,
      credentials w u p ->
      (exists rest,
          trace (query w fp s e pt pd) h =
            prelude (CallQuery fp s e pt pd) u p ++ rest) /\
      sessions (trace (query w fp s e pt pd) h) = [session u p] /\
      (exists rest,
          trace (is_online w products) h =
            prelude (CallIsOnline products) u p ++ rest) /\
      sessions (trace (is_online w products) h) = [session u p] /\
      (exists rest,
          trace (download w products output) h =
            prelude (CallDownload products output) u p ++ rest) /\
      sessions (trace (download w products output) h) = [session u p]).
Proof.
  split.
  - intros H. repeat split; apply no_credentials_run; exact H.
  - intros u p Hc. unfold trace.
    rewrite (query_run _ _ _ _ _ _ _ _ _ Hc),
            (is_online_run _ _ _ _ _ Hc), (download_run _ _ _ _ _ _ Hc).
    cbn [snd]. unfold sessions. rewrite !flat_map_app. cbn.
    repeat split; eauto; f_equal; apply sessions_past_prelude.
    + apply query_body_emits; auto.
    + apply is_online_body_emits; auto.
    + apply download_loop_emits; auto.
Qed.

Lemma credentials_looked_up_by_each_operation_witness :
  (exists key lookups,
      query anonymous_world "aoi/AOI.geojson" "2019" "" None None [] =
        (Raise (KeyError key),
         EInvoke (CallQuery "aoi/AOI.geojson" "2019" "" None None) :: lookups) /\
      (key = "user" \/ key = "password") /\
      forallb is_lookup lookups = true) /\
  sessions (trace (download demo_world [scene1; scene2] "/data/s1") []) =
    [session "alice" "secret"].
Proof.
  split.
  - destruct (credentials_looked_up_by_each_operation anonymous_world
                "aoi/AOI.geojson" "2019" "" None None [] "" [])
      as [H _].
    exact (proj1 (H (or_introl eq_refl))).
  - destruct (credentials_looked_up_by_each_operation demo_world
                "" "" "" None None [scene1; scene2] "/data/s1" [])
      as [_ H].
    destruct (H "alice" "secret" (conj eq_refl eq_refl))
      as (_ & _ & _ & _ & _ & Hd).
    exact Hd.
Defined.

(** ** The search issued by [query] *)

(** C2.  For every combination of the two filters, each one absent
    ([None]) or present (a product type, an orbit: a non-empty string, the
    values the function is documented to take and the only ones the script
    hands it), [query] takes the one arm named after the filters present
    and issues exactly one search, whose keywords are the date range, the
    platform and the keywords of exactly the filters present.  When the
    search answers, [query] returns and has printed one line, the count of
    the records found followed by the words of [count_line]; when it
    raises, so does [query], having printed nothing.  The credentials, the
    footprint and two ordered dates are what lets [query] reach its
    search. *)
Theorem query_issues_one_search w fp s e pt pd h u p g f t0 t1 :
  credentials w u p ->
  read_geojson w fp = Some g -> geojson_to_wkt w g = Some f ->
  to_datetime w s = Some t0 -> to_datetime w e = Some t1 -> (t0 < t1)%Z ->
  plain_filter pt = true -> plain_filter pd = true ->
  one_search_with_present_filters w fp s e pt pd h.
Proof.
  intros Hc Hg Hf Hs He Hlt Hpt Hpd.
  destruct (plain_filters_branch pt pd Hpt Hpd) as [Hb Hk].
  split; [exact Hb |].
  unfold outcome, trace. rewrite (query_run _ _ _ _ _ _ _ _ _ Hc).
  cbn [fst snd]. unfold outcome, trace.
  rewrite (query_body_ordered _ _ _ _ _ _ _ _ g f t0 t1 Hg Hf Hs He Hlt).
  rewrite Hk.
  match goal with
  | |- context [remote_search ?w ?h ?a ?f ?k] =>
      exists f, (remote_search w h a f k);
      destruct (remote_search w h a f k) as [ps |]
  end; cbn; auto.
Qed.

Lemma query_issues_one_search_witness :
  one_search_with_present_filters demo_world "aoi/AOI.geojson"
    "20190201" "20190816" (Some "GRD") (Some "ascending") [].
Proof.
  apply (query_issues_one_search demo_world "aoi/AOI.geojson"
           "20190201" "20190816" (Some "GRD") (Some "ascending") []
           "alice" "secret" "{polygon}" "POLYGON((0 0,0 1,1 1,0 0))"
           20190201 20190816);
    first [ reflexivity | split; reflexivity | lia ].
Defined.

(** Outside that domain: an empty string is not a product type, and the
    script never hands one to [query].  Called directly with one, [query]
    tests it by truth value and reaches its last arm. *)
Example query_empty_string_last_arm :
  query_branch (Some "") None = BothFilters /\
  search_kwargs
    (trace (query demo_world "aoi/AOI.geojson" "20190201" "20190816"
                  (Some "") None) []) =
    [[("date", VTuple ["20190201"; "20190816"]);
      ("platformname", VStr "Sentinel-1");
      ("producttype", VStr ""); ("orbitdirection", VNone)]].
Proof. split; reflexivity. Qed.

(** ** The loop of [is_online] *)

Lemma api_get_product_odata_run w api id h :
  api_get_product_odata w api id h =
  (match remote_odata w h api id with
   | Some m => Return m
   | None => Raise (ExternalError "get_product_odata")
   end, [EOdata id (remote_odata w h api id)]).
Proof. reflexivity. Qed.

Lemma is_online_loop_run w api products :
  forall on off h,
    (exists metas,
        length metas = length products /\
        is_online_loop w api products on off h =
          (Return
             (on ++ map meta_title (List.filter meta_Online metas),
              off ++ map meta_title
                       (List.filter (fun m => negb (meta_Online m)) metas)),
           map (fun rm => EOdata (uuid (fst rm)) (Some (snd rm)))
               (combine products metas))) \/
    forallb answered
      (status_queries (trace (is_online_loop w api products on off) h)) = false.
Proof.
  induction products as [| row rest IH]; intros on off h.
  - left. exists []. split; [reflexivity |]. cbn. now rewrite !app_nil_r.
  - cbn [is_online_loop]. unfold trace. rewrite run_bind.
    rewrite api_get_product_odata_run.
    destruct (remote_odata w h api (uuid row)) as [m |]; [| right; reflexivity].
    cbn [fst snd].
    destruct (meta_Online m) eqn:Hm.
    + destruct (IH (on ++ [meta_title m]) off (h ++ [EOdata (uuid row) (Some m)]))
        as [(metas & Hlen & Hrun) | Hbad].
      * left. exists (m :: metas). split; [cbn; lia |].
        rewrite Hrun. cbn. rewrite Hm. cbn. now rewrite <- app_assoc.
      * right. unfold trace in Hbad. cbn. exact Hbad.
    + destruct (IH on (off ++ [meta_title m]) (h ++ [EOdata (uuid row) (Some m)]))
        as [(metas & Hlen & Hrun) | Hbad].
      * left. exists (m :: metas). split; [cbn; lia |].
        rewrite Hrun. cbn. rewrite Hm. cbn. now rewrite <- app_assoc.
      * right. unfold trace in Hbad. cbn. exact Hbad.
Qed.

Lemma print_each_run (l : list string) (h : list Event) :
  print_each l h = (Return tt, map (fun x => EPrint [x]) l).
Proof.
  revert h. induction l as [| x l IH]; intros h; [reflexivity |].
  cbn [print_each]. rewrite run_bind. cbn. now rewrite IH.
Qed.

Lemma printed_titles_lines (l : list string) :
  printed_titles (map (fun x => EPrint [x]) l) = l.
Proof.
  unfold printed_titles. induction l as [| x l IH]; simpl;
    [reflexivity | now rewrite IH].
Qed.

Lemma status_queries_lines (l : list string) :
  status_queries (map (fun x => EPrint [x]) l) = [].
Proof.
  unfold status_queries. induction l as [| x l IH]; simpl;
    [reflexivity | exact IH].
Qed.

Lemma print_run (a : list string) (h : list Event) :
  print a h = (Return tt, [EPrint a]).
Proof. reflexivity. Qed.

Lemma printed_titles_app (a b : list Event) :
  printed_titles (a ++ b) = printed_titles a ++ printed_titles b.
Proof. apply flat_map_app. Qed.

Lemma status_queries_app (a b : list Event) :
  status_queries (a ++ b) = status_queries a ++ status_queries b.
Proof. apply flat_map_app. Qed.

Ltac run_prints :=
  repeat (rewrite run_bind; rewrite ?print_run, ?print_each_run;
          cbn [fst snd]).

Lemma is_online_report_run (on off : list string) (h : list Event) :
  outcome (is_online_report on off) h = Return tt /\
  printed_titles (trace (is_online_report on off) h) = on ++ off /\
  status_queries (trace (is_online_report on off) h) = [].
Proof.
  unfold is_online_report, outcome, trace.
  destruct (Nat.eqb (length off) 0 && Nat.ltb 0 (length on)) eqn:E1;
    [| destruct (Nat.ltb 0 (length off) && Nat.eqb (length on) 0) eqn:E2].
  - destruct off; [| discriminate E1]. run_prints.
    rewrite !printed_titles_app, !status_queries_app,
      printed_titles_lines, status_queries_lines, app_nil_r. auto.
  - destruct on; [| now rewrite andb_false_r in E2]. run_prints.
    rewrite !printed_titles_app, !status_queries_app,
      printed_titles_lines, status_queries_lines. auto.
  - run_prints.
    rewrite !printed_titles_app, !status_queries_app,
      !printed_titles_lines, !status_queries_lines. auto.
Qed.

Lemma filter_split_Permutation {A : Type} (f : A -> bool) (l : list A) :
  Permutation (List.filter f l ++ List.filter (fun x => negb (f x)) l) l.
Proof.
  induction l as [| x l IH]; simpl; [constructor |].
  destruct (f x); simpl.
  - now constructor.
  - symmetry. apply Permutation_cons_app. now symmetry.
Qed.

Lemma status_queries_answers (products : list Product) (metas : list Meta) :
  status_queries
    (map (fun rm => EOdata (uuid (fst rm)) (Some (snd rm)))
         (combine products metas)) =
  combine (map uuid products) (map Some metas).
Proof.
  unfold status_queries. revert metas.
  induction products as [| r products IH]; intros [| m metas]; simpl;
    try reflexivity.
  now rewrite IH.
Qed.

Lemma printed_titles_answers (products : list Product) (metas : list Meta) :
  printed_titles
    (map (fun rm => EOdata (uuid (fst rm)) (Some (snd rm)))
         (combine products metas)) = [].
Proof.
  unfold printed_titles.
  induction (combine products metas) as [| x l IH]; simpl; auto.
Qed.

(** ** Partition by availability *)

(** C4.  In a run of [is_online] in which every status query is answered,
    the answers [metas] come one per record, in the order of the result
    set.  The online group holds the titles of the answers reported online
    and the offline group the titles of the others, both in that order; the
    two groups together are a rearrangement of all the titles, so each
    record is in exactly one group, and their sizes add up to the number
    of records.  The titles are printed group by group in the same order.
    The title of a record is the one its status answer carries. *)
Theorem is_online_partitions_titles w products h u p :
  credentials w u p ->
  forallb answered (status_queries (trace (is_online w products) h)) = true ->
  exists metas,
    let online := map meta_title (List.filter meta_Online metas) in
    let offline :=
      map meta_title (List.filter (fun m => negb (meta_Online m)) metas) in
    length metas = length products /\
    status_queries (trace (is_online w products) h) =
      combine (map uuid products) (map Some metas) /\
    outcome (is_online_loop w (session u p) products [] [])
            (h ++ prelude (CallIsOnline products) u p) =
      Return (online, offline) /\
    outcome (is_online w products) h = Return tt /\
    printed_titles (trace (is_online w products) h) = online ++ offline /\
    length online + length offline = length products /\
    Permutation (online ++ offline) (map meta_title metas).
Proof.
  intros Hc. unfold outcome at 2, trace.
  rewrite (is_online_run _ _ _ _ _ Hc). cbn [fst snd].
  set (h' := h ++ prelude (CallIsOnline products) u p).
  unfold is_online_body, outcome, trace. rewrite run_bind.
  rewrite status_queries_app. cbn [prelude status_queries flat_map app].
  destruct (is_online_loop_run w (session u p) products [] [] h')
    as [(metas & Hlen & Hrun) | Hbad].
  - intros _. exists metas. rewrite Hrun. cbn [fst snd app].
    destruct (is_online_report_run
                (map meta_title (List.filter meta_Online metas))
                (map meta_title
                   (List.filter (fun m => negb (meta_Online m)) metas))
                (h' ++ map (fun rm => EOdata (uuid (fst rm)) (Some (snd rm)))
                           (combine products metas)))
      as (Hout & Htitles & Hsq).
    unfold outcome, trace in Hout, Htitles, Hsq.
    assert (Hperm : Permutation
              (map meta_title (List.filter meta_Online metas) ++
               map meta_title
                 (List.filter (fun m => negb (meta_Online m)) metas))
              (map meta_title metas)).
    { rewrite <- map_app. apply Permutation_map, filter_split_Permutation. }
    repeat split.
    + exact Hlen.
    + rewrite status_queries_app, Hsq, app_nil_r. apply status_queries_answers.
    + exact Hout.
    + change (printed_titles (_ :: _ :: _ :: _ :: ?t))
        with (printed_titles t).
      rewrite printed_titles_app, Htitles, printed_titles_answers.
      reflexivity.
    + rewrite <- length_app, (Permutation_length Hperm), length_map.
      exact Hlen.
    + exact Hperm.
  - unfold trace in Hbad. intros Hok. exfalso.
    destruct (is_online_loop w (session u p) products [] [] h')
      as [[groups | x] t]; cbn [fst snd] in *.
    + rewrite status_queries_app, forallb_app, Hbad in Hok. discriminate.
    + rewrite Hbad in Hok. discriminate.
Qed.

Lemma is_online_partitions_titles_witness :
  exists metas,
    length metas = 2 /\
    printed_titles (trace (is_online demo_world [scene1; scene2]) []) =
      map meta_title (List.filter meta_Online metas) ++
      map meta_title (List.filter (fun m => negb (meta_Online m)) metas).
Proof.
  destruct (is_online_partitions_titles demo_world [scene1; scene2] []
              "alice" "secret" (conj eq_refl eq_refl) eq_refl)
    as (metas & Hlen & _ & _ & _ & Hp & _).
  exists metas. split; [exact Hlen | exact Hp].
Defined.

(** ** The loop of [download] *)

Lemma download_loop_cons w api row rest output h :
  download_loop w api (row :: rest) output h =
  match remote_odata w h api (uuid row) with
  | None =>
      (Raise (ExternalError "get_product_odata"), [EOdata (uuid row) None])
  | Some m =>
      let e1 := EOdata (uuid row) (Some m) in
      if meta_Online m then
        let e2 := EPrint (online_notice (meta_title m)) in
        let ok := remote_download w (h ++ [e1; e2]) api (uuid row) output in
        let e3 := EDownload (uuid row) output ok in
        if ok then
          (outcome (download_loop w api rest output) (h ++ [e1; e2; e3]),
           [e1; e2; e3] ++
           trace (download_loop w api rest output) (h ++ [e1; e2; e3]))
        else (Raise (ExternalError "download"), [e1; e2; e3])
      else
        let e2 := EPrint (offline_notice (meta_title m)) in
        (outcome (download_loop w api rest output) (h ++ [e1; e2]),
         [e1; e2] ++ trace (download_loop w api rest output) (h ++ [e1; e2]))
  end.
Proof.
  cbn [download_loop]. rewrite run_bind, api_get_product_odata_run.
  destruct (remote_odata w h api (uuid row)) as [m |]; [| reflexivity].
  cbn [fst snd]. destruct (meta_Online m).
  - rewrite !run_bind, print_run. cbn [fst snd]. unfold api_download.
    rewrite <- !app_assoc. cbn [app].
    destruct (remote_download w _ api (uuid row) output); cbn; reflexivity.
  - rewrite !run_bind, print_run. cbn [fst snd].
    rewrite <- !app_assoc. reflexivity.
Qed.

Lemma download_calls_app (a b : list Event) :
  download_calls (a ++ b) = download_calls a ++ download_calls b.
Proof. apply flat_map_app. Qed.

Lemma printed_app (a b : list Event) :
  printed (a ++ b) = printed a ++ printed b.
Proof. apply flat_map_app. Qed.

Lemma download_loop_run w api output products :
  forall h,
  exists answers,
    let t := trace (download_loop w api products output) h in
    let reported := combine products answers in
    length answers <= length products /\
    status_queries t = combine (map uuid products) answers /\
    download_calls t =
      map (fun ra => (uuid (fst ra), output))
          (List.filter reported_online reported) /\
    printed t = flat_map notice_for reported /\
    (forallb answered (status_queries t) = true ->
     forallb download_ok t = true ->
     outcome (download_loop w api products output) h = Return tt /\
     length answers = length products).
Proof.
  induction products as [| row rest IH]; intros h.
  - exists []. cbn. repeat split; auto.
  - unfold trace at 1, outcome. rewrite download_loop_cons.
    destruct (remote_odata w h api (uuid row)) as [m |].
    2:{ exists [None]. cbn. rewrite !combine_nil. cbn.
        repeat split; try lia; discriminate. }
    cbv zeta. destruct (meta_Online m) eqn:Hm.
    + destruct (remote_download w _ api (uuid row) output) eqn:Hok.
      * match goal with
        | |- context [trace (download_loop w api rest output) ?h'] =>
            destruct (IH h') as (answers & Hlen & Hsq & Hdc & Hpr & Hret)
        end.
        exists (Some m :: answers). cbn [fst snd].
        rewrite status_queries_app, download_calls_app, printed_app,
          forallb_app, Hsq, Hdc, Hpr.
        cbn. unfold reported_online at 1, notice_for at 1. cbn. rewrite Hm.
        cbn. repeat split; try lia.
        -- apply Hret; [congruence | assumption].
        -- f_equal. apply Hret; [congruence | assumption].
      * exists [Some m]. cbn. rewrite !combine_nil.
        unfold reported_online, notice_for. cbn. rewrite Hm.
        repeat split; try lia; discriminate.
    + match goal with
      | |- context [trace (download_loop w api rest output) ?h'] =>
          destruct (IH h') as (answers & Hlen & Hsq & Hdc & Hpr & Hret)
      end.
      exists (Some m :: answers). cbn [fst snd].
      rewrite status_queries_app, download_calls_app, printed_app,
        forallb_app, Hsq, Hdc, Hpr.
      cbn. unfold reported_online at 1, notice_for at 1. cbn. rewrite Hm.
      cbn. repeat split; try lia.
      -- apply Hret; [congruence | assumption].
      -- f_equal. apply Hret; [congruence | assumption].
Qed.

(** ** One download per record reported online *)

(** C5.  [download] queries the status of the records one after the other,
    in the order of the result set; [answers] are the answers it got, for
    the records it reached.  The download calls are exactly one per record
    reported online, in order, each for that record's id and for the given
    directory; a record reported offline causes no call.  The lines printed
    are, in the order of the records, the [skip_notice] naming the record
    by its title for each record reported offline and the
    [download_notice] naming it for each record reported online, and
    nothing else.  When every status query is answered and no download
    fails, the operation returns having reached every record. *)
Theorem download_calls_follow_status w products output h u p :
  credentials w u p ->
  exists answers,
    let t := trace (download w products output) h in
    let reported := combine products answers in
    length answers <= length products /\
    status_queries t = combine (map uuid products) answers /\
    download_calls t =
      map (fun ra => (uuid (fst ra), output))
          (List.filter reported_online reported) /\
    printed t = flat_map notice_for reported /\
    (forallb answered (status_queries t) = true ->
     forallb download_ok t = true ->
     outcome (download w products output) h = Return tt /\
     length answers = length products).
Proof.
  intros Hc. unfold trace, outcome. rewrite (download_run _ _ _ _ _ _ Hc).
  cbn [fst snd].
  destruct (download_loop_run w (session u p) output products
              (h ++ prelude (CallDownload products output) u p))
    as (answers & H).
  exists answers.
  rewrite status_queries_app, download_calls_app, printed_app, forallb_app.
  exact H.
Qed.

Lemma download_calls_follow_status_witness :
  exists answers,
    status_queries (trace (download demo_world [scene1; scene2] "/data/s1") []) =
      combine ["uuid-1"; "uuid-2"] answers /\
    download_calls (trace (download demo_world [scene1; scene2] "/data/s1") []) =
      map (fun ra => (uuid (fst ra), "/data/s1"))
          (List.filter reported_online (combine [scene1; scene2] answers)) /\
    printed (trace (download demo_world [scene1; scene2] "/data/s1") []) =
      flat_map notice_for (combine [scene1; scene2] answers).
Proof.
  destruct (download_calls_follow_status demo_world [scene1; scene2]
              "/data/s1" [] "alice" "secret" (conj eq_refl eq_refl))
    as (answers & _ & Hsq & Hdc & Hpr & _).
  exists answers. split; [exact Hsq | split; [exact Hdc | exact Hpr]].
Defined.

(** ** Empty result set *)

(** C6.  On an empty result set [is_online] and [download] make no status
    query and [download] issues no download call.  With the credentials
    set, [is_online] returns after printing the summary line with both
    counts zero and the two group headings, and [download] returns having
    done nothing beyond opening its session. *)
Theorem empty_result_set_costs_nothing w output h :
  status_queries (trace (is_online w []) h) = [] /\
  status_queries (trace (download w [] output) h) = [] /\
  download_calls (trace (download w [] output) h) = [] /\
  forall u p,
    credentials w u p ->
    is_online w [] h =
      (Return tt,
       prelude (CallIsOnline []) u p ++
       [EPrint ["0 online and 0 offline products have been found"; nl];
        EPrint ["Online products"; nl];
        EPrint ["offline products"; nl]]) /\
    download w [] output h = (Return tt, prelude (CallDownload [] output) u p).
Proof.
  unfold trace, is_online, download. rewrite !with_session_run.
  destruct (environ w !! "user") as [u0 |] eqn:Hu.
  2:{ repeat split; try reflexivity; destruct H; congruence. }
  destruct (environ w !! "password") as [p0 |] eqn:Hp.
  2:{ repeat split; try reflexivity; destruct H; congruence. }
  repeat split; try reflexivity.
  all: destruct H as [Hu' Hp']; rewrite Hu in Hu'; rewrite Hp in Hp'.
  all: injection Hu' as ->; injection Hp' as ->; reflexivity.
Qed.

Lemma empty_result_set_costs_nothing_witness :
  printed (trace (is_online demo_world []) []) =
    [["0 online and 0 offline products have been found"; nl];
     ["Online products"; nl]; ["offline products"; nl]] /\
  download demo_world [] "/data/s1" [] =
    (Return tt, prelude (CallDownload [] "/data/s1") "alice" "secret").
Proof.
  destruct (empty_result_set_costs_nothing demo_world "/data/s1" [])
    as (_ & _ & _ & H).
  destruct (H "alice" "secret" (conj eq_refl eq_refl)) as [Ho Hd].
  split; [| exact Hd].
  unfold trace. rewrite Ho. reflexivity.
Defined.

(** ** The command line *)

Ltac main_compute :=
  unfold main, main_query, parser_error, read_products, path_cwd, print,
    emit, raise, mbind, Py_bind, mret, Py_ret; cbn.

(** C8.  When the footprint, the start date or the end date is missing
    (not given, or given empty), the script ends through [parser.error]:
    the only thing it does is report one of the two usage messages and
    exit with status 2, so no operation is entered and no remote call
    made. *)
Theorem missing_required_argument_exits w args h :
  truthy (arg_footprint args) = false \/
  truthy (arg_start_date args) = false \/
  truthy (arg_end_date args) = false ->
  exists msg,
    main w args h = (Raise (SystemExit 2), [EParserError msg]) /\
    (msg = footprint_missing \/ msg = dates_missing).
Proof.
  intros H. main_compute.
  destruct (truthy (arg_footprint args)); cbn; [| eauto].
  destruct H as [H | [H | H]]; [discriminate | |]; rewrite H; cbn;
    rewrite ?orb_true_r; cbn; eauto.
Qed.

Lemma missing_required_argument_exits_witness :
  exists msg,
    main demo_world no_args [] = (Raise (SystemExit 2), [EParserError msg]) /\
    (msg = footprint_missing \/ msg = dates_missing).
Proof.
  apply (missing_required_argument_exits demo_world no_args []).
  left. reflexivity.
Defined.

Lemma emits_bind_returned {A B : Type} (P : Event -> bool)
    (m : Py A) (k : A -> Py B) :
  emits P m ->
  (forall a, (exists h, outcome m h = Return a) -> emits P (k a)) ->
  emits P (m ≫= k).
Proof.
  intros Hm Hk h. rewrite trace_bind, forallb_app, Hm. cbn.
  destruct (outcome m h) eqn:E; [| reflexivity]. apply Hk. eauto.
Qed.

Lemma path_cwd_returns w a :
  (exists h, outcome (path_cwd w) h = Return a) -> a = cwd w.
Proof.
  intros [h H].
  unfold outcome, path_cwd, emit, mbind, Py_bind, mret, Py_ret in H.
  cbn in H. congruence.
Qed.

Lemma main_query_emits (P : Event -> bool) w args :
  (forall a b c d e', P (EInvoke (CallQuery a b c d e')) = true) ->
  (forall k, P (EEnviron k) = true) ->
  (forall a, P (ESentinelAPI a) = true) ->
  (forall f, P (EReadGeojson f) = true) ->
  (forall a k r, P (ESearch a k r) = true) ->
  (forall l, P (EPrint l) = true) ->
  (forall m, P (EParserError m) = true) ->
  emits P (main_query w args).
Proof.
  intros H1 H2 H3 H4 H5 H6 H7. unfold main_query.
  repeat first [ apply query_emits; auto | emits_step; auto ].
Qed.

Lemma queries_not_a_query (t : list Event) :
  forallb not_a_query t = true -> queries t = [] /\ searches t = [].
Proof.
  intros H. split.
  - revert H. apply forallb_flat_map_nil.
    intros [[] | | | | | | | | |] He; try reflexivity; discriminate.
  - revert H. apply forallb_filter_nil.
    intros [[] | | | | | | | | |] He; try reflexivity; discriminate.
Qed.

(** C7 (as amended).  When a non-empty product type outside GRD, SLC, OCN
    or a non-empty pass direction outside ascending, descending is given,
    [query] is never entered and no search is issued. *)
Theorem rejected_filter_never_queries w args h :
  rejected_filter args = true -> never_queries w args h.
Proof.
  intros H. apply queries_not_a_query. revert h.
  change (emits not_a_query (main w args)).
  unfold rejected_filter, rejected_value in H. unfold main, main_query.
  destruct (truthy (arg_product_type args)),
           (truthy (arg_pass_direction args)),
           (str_in (str_of (arg_product_type args)) product_types),
           (str_in (str_of (arg_pass_direction args)) orbits);
    try discriminate H; cbn [negb andb orb];
    repeat first [ apply is_online_emits; auto
                 | apply download_emits; auto
                 | emits_step; auto ].
Qed.

Lemma rejected_filter_never_queries_witness :
  never_queries demo_world bad_type_args [].
Proof.
  apply (rejected_filter_never_queries demo_world bad_type_args []).
  reflexivity.
Defined.

(** An empty product type is not one of GRD, SLC, OCN, yet the script
    treats it as no product type and goes on to query. *)
Lemma empty_filter_queries_counterexample :
  invalid_filter empty_type_args = true /\
  ~ never_queries demo_world empty_type_args [].
Proof.
  split; [reflexivity |].
  intros [Hq _]. vm_compute in Hq. discriminate Hq.
Qed.

(** C3 (as amended).  With the footprint and both dates given, a non-empty
    product type outside GRD, SLC, OCN or a non-empty pass direction
    outside ascending, descending makes the validation step print one
    message and end normally with [products] unbound.  The script then
    fails with [NameError] on [products] exactly when the online check or
    the download is requested, at the point where that stage would read
    the variable: no operation is entered and no remote call made. *)
Theorem rejected_filter_leaves_products_unbound w args h :
  required_present args = true ->
  rejected_filter args = true ->
  validation_leaves_products_unbound w args h.
Proof.
  unfold required_present, rejected_filter, rejected_value.
  intros [[Hfp Hs]%andb_prop He]%andb_prop Hrej.
  unfold validation_leaves_products_unbound, outcome, trace, main, main_query.
  rewrite Hfp, Hs, He.
  destruct (truthy (arg_product_type args)),
           (truthy (arg_pass_direction args)),
           (str_in (str_of (arg_product_type args)) product_types),
           (str_in (str_of (arg_pass_direction args)) orbits);
    try discriminate Hrej;
    destruct (arg_online args), (arg_download args),
             (truthy (arg_outdir args));
    main_compute; eexists; repeat split.
Qed.

Lemma rejected_filter_leaves_products_unbound_witness :
  validation_leaves_products_unbound demo_world bad_type_args [].
Proof.
  apply (rejected_filter_leaves_products_unbound demo_world bad_type_args []);
    reflexivity.
Defined.

(** With an empty product type the validation step prints nothing and
    binds [products] to the result of an unfiltered query. *)
Lemma empty_filter_binds_products_counterexample :
  required_present empty_type_args = true /\
  invalid_filter empty_type_args = true /\
  main_query demo_world empty_type_args [] =
    (Return (Some [scene1; scene2]),
     trace (query demo_world "aoi/AOI.geojson" "20190201" "20190816"
                  None None) []) /\
  ~ validation_leaves_products_unbound demo_world empty_type_args [].
Proof.
  repeat split; try reflexivity.
  intros (msg & Hq & _). vm_compute in Hq. discriminate Hq.
Qed.

(** ** Output directory *)

Lemma download_invocations_app (a b : list Event) :
  download_invocations (a ++ b) =
  download_invocations a ++ download_invocations b.
Proof. apply flat_map_app. Qed.

Lemma downloads_into_In (output : string) (t : list Event) :
  forallb (downloads_into output) t = true ->
  forall c, In c (download_invocations t) -> snd c = output.
Proof.
  induction t as [| e t IH]; cbn; [tauto |].
  intros [He Ht]%andb_prop c Hin. apply in_app_or in Hin as [Hin | Hin].
  - destruct e as [[] | | | | | | | | |]; cbn in Hin; try tauto.
    destruct Hin as [<- | []]. now apply String.eqb_eq in He.
  - now apply IH.
Qed.

Lemma no_download_invocation (t : list Event) :
  forallb (fun e => match e with
                    | EInvoke (CallDownload _ _) => false
                    | _ => true
                    end) t = true ->
  download_invocations t = [].
Proof.
  apply forallb_flat_map_nil.
  intros [[] | | | | | | | | |] He; try reflexivity; discriminate.
Qed.

Lemma download_invocations_download w ps output h :
  download_invocations (trace (download w ps output) h) = [(ps, output)].
Proof.
  unfold trace, download. rewrite with_session_run.
  destruct (environ w !! "user") as [u |]; [| reflexivity].
  destruct (environ w !! "password") as [p |]; [| reflexivity].
  cbn [snd]. rewrite download_invocations_app. cbn. f_equal.
  apply no_download_invocation. apply download_loop_emits; auto.
Qed.

Lemma main_emits_downloads_into w args :
  emits (downloads_into (chosen_outdir w args)) (main w args).
Proof.
  unfold main, chosen_outdir.
  apply emits_bind; [emits_auto |]. intros _.
  apply emits_bind; [apply main_query_emits; auto |]. intros products.
  apply emits_bind.
  { repeat first [ apply is_online_emits; auto | emits_step; auto ]. }
  intros _.
  destruct (arg_download args); cbn [andb]; [| apply emits_ret].
  destruct (truthy (arg_outdir args)); cbn [negb].
  - apply emits_bind; [emits_auto |]. intros ps.
    apply download_emits; auto. cbn. apply String.eqb_refl.
  - apply emits_bind_returned; [emits_auto |].
    intros path ->%path_cwd_returns.
    apply emits_bind; [emits_auto |]. intros ps.
    apply download_emits; auto. cbn. apply String.eqb_refl.
Qed.

(** C9 (as amended).  With [--download] set, [download] is only ever
    entered with the current working directory when [--outdir] is not
    given or is empty, and with exactly the given path when it is
    non-empty; and it is entered, once, with the products of the query,
    whenever the query stage bound [products] and the online check, if
    requested, completed. *)
Theorem download_receives_chosen_outdir w args h :
  arg_download args = true ->
  downloader_receives (chosen_outdir w args) w args h.
Proof.
  intros Hd. split.
  - apply downloads_into_In, main_emits_downloads_into.
  - intros ps t1 Hfp Hq Hon. unfold trace, main. rewrite Hfp, Hd. cbn [negb andb].
    rewrite (run_bind_Return (mret tt) _ h tt [] eq_refl).
    cbn [snd app]. unfold trace. rewrite app_nil_r.
    rewrite (run_bind_Return _ _ _ _ _ Hq). cbn [snd].
    assert (Ht1 : download_invocations t1 = []).
    { replace t1 with (trace (main_query w args) h)
        by (unfold trace; now rewrite Hq).
      apply no_download_invocation, main_query_emits; auto. }
    rewrite download_invocations_app, Ht1. cbn [app].
    rewrite trace_bind, download_invocations_app.
    assert (Hstage :
      download_invocations
        (trace (if arg_online args
                then read_products (Some ps) ≫= λ ps0, is_online w ps0
                else mret ()) (h ++ t1)) = [] /\
      outcome (if arg_online args
               then read_products (Some ps) ≫= λ ps0, is_online w ps0
               else mret ()) (h ++ t1) = Return tt).
    { destruct (arg_online args); [| split; reflexivity].
      rewrite trace_bind, outcome_bind. cbn. rewrite app_nil_r.
      split; [| now apply Hon].
      apply no_download_invocation, is_online_emits; auto. }
    destruct Hstage as [Hs1 Hs2]. rewrite Hs1, Hs2. cbn [app].
    unfold chosen_outdir.
    destruct (truthy (arg_outdir args)); cbn [negb].
    + unfold trace at 1.
      rewrite (run_bind_Return (read_products (Some ps)) _ _ ps [] eq_refl). cbn [snd app].
      apply download_invocations_download.
    + unfold trace at 1.
      rewrite (run_bind_Return (path_cwd w) _ _ (cwd w) [ECwd] eq_refl). cbn [snd].
      unfold trace at 1.
      rewrite (run_bind_Return (read_products (Some ps)) _ _ ps [] eq_refl). cbn [snd app].
      change (download_invocations (ECwd :: ?t)) with (download_invocations t).
      apply download_invocations_download.
Qed.

Lemma download_receives_chosen_outdir_witness :
  download_invocations (trace (main demo_world outdir_args) []) =
    [([scene1; scene2], "/data/s1")].
Proof.
  destruct (download_receives_chosen_outdir demo_world outdir_args []
              eq_refl) as [_ H].
  apply (H [scene1; scene2]
           (trace (query demo_world "aoi/AOI.geojson" "20190201" "20190816"
                         None None) []));
    reflexivity.
Defined.

(** [--outdir ''] is a given path, yet [download] receives the current
    working directory. *)
Lemma empty_outdir_counterexample :
  arg_download empty_outdir_args = true /\
  download_invocations (trace (main demo_world empty_outdir_args) []) =
    [([scene1; scene2], "/home/alice")] /\
  ~ downloader_receives (given_outdir demo_world empty_outdir_args)
      demo_world empty_outdir_args [].
Proof.
  repeat split.
  intros [H _].
  specialize (H ([scene1; scene2], "/home/alice") (or_introl eq_refl)).
  discriminate H.
Qed.

(** * Further properties *)

(** ** Every way [query] can run *)

Lemma query_body_cases w api fp s e pt pd h :
  query_body w api fp s e pt pd h =
  match read_geojson w fp with
  | None => (Raise (ExternalError "read_geojson"), [EReadGeojson fp])
  | Some g =>
      match geojson_to_wkt w g with
      | None => (Raise (ExternalError "geojson_to_wkt"), [EReadGeojson fp])
      | Some f =>
          match to_datetime w s, to_datetime w e with
          | Some t0, Some t1 =>
              if (t0 <? t1)%Z then
                let kwargs :=
                  [("date", VTuple [s; e]); ("platformname", VStr "Sentinel-1")]
                  ++ arm_keywords (query_branch pt pd) pt pd in
                let resp :=
                  remote_search w (h ++ [EReadGeojson fp]) api f kwargs in
                match resp with
                | Some ps =>
                    (Return ps, [EReadGeojson fp; ESearch f kwargs resp;
                                 EPrint (scenes_found (length ps))])
                | None => (Raise (ExternalError "query"),
                           [EReadGeojson fp; ESearch f kwargs resp])
                end
              else (Raise (AssertionError (date_order_message w t0 t1)),
                    [EReadGeojson fp])
          | _, _ => (Raise (ValueError "to_datetime"), [EReadGeojson fp])
          end
      end
  end.
Proof.
  destruct (read_geojson w fp) as [g |] eqn:Hg.
  2:{ unfold query_body, call_read_geojson, emit, raise, mbind, Py_bind.
      cbn. now rewrite Hg. }
  destruct (geojson_to_wkt w g) as [f |] eqn:Hf.
  2:{ unfold query_body, call_read_geojson, call_geojson_to_wkt, emit, raise,
        mbind, Py_bind, mret, Py_ret.
      cbn. rewrite Hg. cbn. now rewrite Hf. }
  destruct (to_datetime w s) as [t0 |] eqn:Hs.
  2:{ unfold query_body, call_read_geojson, call_geojson_to_wkt,
        pd_to_datetime, emit, raise, mbind, Py_bind, mret, Py_ret.
      cbn. rewrite Hg. cbn. rewrite Hf. cbn. now rewrite Hs. }
  destruct (to_datetime w e) as [t1 |] eqn:He.
  2:{ unfold query_body, call_read_geojson, call_geojson_to_wkt,
        pd_to_datetime, emit, raise, mbind, Py_bind, mret, Py_ret.
      cbn. rewrite Hg. cbn. rewrite Hf. cbn. now rewrite Hs, He. }
  destruct (Z.ltb_spec t0 t1) as [Hlt | Hge].
  - apply (query_body_ordered w api fp s e pt pd h g f t0 t1); assumption.
  - destruct (query_body_unordered w api fp s e pt pd h t0 t1 Hs He Hge)
      as (_ & _ & H).
    now apply H with g f.
Qed.

(** The run of [query] as a function of what the collaborators answer. *)
Lemma query_cases w fp s e pt pd h :
  let c := CallQuery fp s e pt pd in
  query w fp s e pt pd h =
  match environ w !! "user", environ w !! "password" with
  | None, _ => (Raise (KeyError "user"), [EInvoke c; EEnviron "user"])
  | Some u, None =>
      (Raise (KeyError "password"),
       [EInvoke c; EEnviron "user"; EEnviron "password"])
  | Some u, Some p =>
      (outcome (query_body w (session u p) fp s e pt pd) (h ++ prelude c u p),
       prelude c u p ++
       trace (query_body w (session u p) fp s e pt pd) (h ++ prelude c u p))
  end.
Proof. intros c. unfold query. apply with_session_run. Qed.

(** Destructs, in the order the code consults them, everything the run of
    [query] in the goal depends on. *)
Ltac query_split :=
  rewrite ?query_cases; cbv zeta;
  destruct (environ _ !! "user") as [?u |] eqn:?Hu;
    [destruct (environ _ !! "password") as [?p |] eqn:?Hp |];
    unfold outcome, trace in *; rewrite ?query_body_cases in *;
    cbv zeta in *;
    repeat match goal with
           | |- context [read_geojson ?w ?x] =>
               destruct (read_geojson w x) as [?g |] eqn:?Hg
           | |- context [geojson_to_wkt ?w ?x] =>
               destruct (geojson_to_wkt w x) as [?f |] eqn:?Hf
           | |- context [to_datetime ?w ?x] =>
               destruct (to_datetime w x) as [?t |] eqn:?Ht
           | |- context [(?a <? ?b)%Z] =>
               destruct (Z.ltb_spec a b) as [?Hlt | ?Hge]
           | |- context [remote_search ?w ?h ?a ?f ?k] =>
               destruct (remote_search w h a f k) as [?ps |] eqn:?Hr
           end;
    cbn [fst snd] in *.

(** X1.  [query] reaches the catalogue only when both credentials are set,
    the footprint file is read and converted, both dates parse and the
    start is earlier than the end. *)
Theorem query_search_needs_everything w fp s e pt pd h :
  searches (trace (query w fp s e pt pd) h) <> [] ->
  exists u p g f t0 t1,
    credentials w u p /\
    read_geojson w fp = Some g /\ geojson_to_wkt w g = Some f /\
    to_datetime w s = Some t0 /\ to_datetime w e = Some t1 /\ (t0 < t1)%Z.
Proof.
  unfold trace. query_split; intros H; try (exfalso; apply H; reflexivity);
    unfold credentials; eauto 15.
Qed.

Lemma query_search_needs_everything_witness :
  exists u p g f t0 t1,
    credentials demo_world u p /\
    read_geojson demo_world "aoi/AOI.geojson" = Some g /\
    geojson_to_wkt demo_world g = Some f /\
    to_datetime demo_world "20190201" = Some t0 /\
    to_datetime demo_world "20190816" = Some t1 /\ (t0 < t1)%Z.
Proof.
  apply (query_search_needs_everything demo_world "aoi/AOI.geojson"
           "20190201" "20190816" None None []).
  vm_compute. discriminate.
Defined.

(** X2.  Whatever its arguments and whatever the collaborators answer,
    [query] makes at most one remote call, and it is a search: it never
    asks for the status of a product and never downloads. *)
Theorem query_makes_at_most_one_search w fp s e pt pd h :
  remote_calls (trace (query w fp s e pt pd) h) =
    searches (trace (query w fp s e pt pd) h) /\
  length (searches (trace (query w fp s e pt pd) h)) <= 1 /\
  status_queries (trace (query w fp s e pt pd) h) = [] /\
  download_calls (trace (query w fp s e pt pd) h) = [].
Proof.
  unfold trace. query_split; cbn; repeat split; lia.
Qed.

(** X3.  When [query] returns, the table it returns holds exactly the
    records its one search received, and the one line it printed is
    [count_line] for their number: the number in decimal, then the words
    scenes have been found in total, and a line feed as second argument.
    When [query] raises, whatever the reason, it has printed nothing. *)
Theorem query_returns_what_the_search_found w fp s e pt pd h :
  (forall ps,
      outcome (query w fp s e pt pd) h = Return ps ->
      exists area kwargs,
        searches (trace (query w fp s e pt pd) h) =
          [ESearch area kwargs (Some ps)] /\
        printed (trace (query w fp s e pt pd) h) =
          [count_line (length ps)]) /\
  (forall x,
      outcome (query w fp s e pt pd) h = Raise x ->
      printed (trace (query w fp s e pt pd) h) = []).
Proof.
  unfold outcome, trace. query_split; split; intros r Hr';
    try discriminate Hr'; try reflexivity.
  injection Hr' as <-. cbn. eauto.
Qed.

Lemma query_returns_what_the_search_found_witness :
  exists area kwargs,
    searches
      (trace (query demo_world "aoi/AOI.geojson" "20190201" "20190816"
                    (Some "GRD") None) []) =
      [ESearch area kwargs (Some [scene1; scene2])] /\
    printed
      (trace (query demo_world "aoi/AOI.geojson" "20190201" "20190816"
                    (Some "GRD") None) []) =
      [["2 scenes have been found in total"; nl]].
Proof.
  apply (proj1 (query_returns_what_the_search_found demo_world
                  "aoi/AOI.geojson" "20190201" "20190816" (Some "GRD") None [])
               [scene1; scene2]).
  reflexivity.
Defined.

Lemma arm_keywords_given (b : Branch) (pt pd : option string) k v :
  In (k, v) (arm_keywords b pt pd) ->
  (k = "producttype" /\ v = to_pyval pt) \/
  (k = "orbitdirection" /\ v = to_pyval pd).
Proof.
  destruct b; cbn; intros H;
    repeat match goal with
           | H : _ \/ _ |- _ => destruct H as [H | H]
           | H : (_, _) = (_, _) |- _ => injection H as <- <-
           end; try contradiction; auto.
Qed.

(** X4.  Every search [query] issues is over the footprint read from the
    given path, and carries the two dates as they were given and the
    platform name ['Sentinel-1'], followed only by filter keywords:
    [producttype] with the product type it received and [orbitdirection]
    with the pass direction it received.  No other keyword is ever sent. *)
Theorem query_search_arguments w fp s e pt pd h area kwargs resp :
  In (ESearch area kwargs resp) (trace (query w fp s e pt pd) h) ->
  (exists g, read_geojson w fp = Some g /\ geojson_to_wkt w g = Some area) /\
  exists filters,
    kwargs = [("date", VTuple [s; e]); ("platformname", VStr "Sentinel-1")]
             ++ filters /\
    forall k v,
      In (k, v) filters ->
      (k = "producttype" /\ v = to_pyval pt) \/
      (k = "orbitdirection" /\ v = to_pyval pd).
Proof.
  unfold trace. query_split; cbn; intros H;
    repeat match goal with
           | H : _ \/ _ |- _ => destruct H as [H | H]
           | H : False |- _ => contradiction
           end; try discriminate H.
  all: injection H as <- <- _; (split; [eauto |]).
  all: eexists; split; [reflexivity | apply arm_keywords_given].
Qed.

Lemma query_search_arguments_witness :
  exists filters,
    [("date", VTuple ["20190201"; "20190816"]);
     ("platformname", VStr "Sentinel-1"); ("orbitdirection", VStr "ascending")]
    = [("date", VTuple ["20190201"; "20190816"]);
       ("platformname", VStr "Sentinel-1")] ++ filters /\
    forall k v,
      In (k, v) filters ->
      (k = "producttype" /\ v = to_pyval None) \/
      (k = "orbitdirection" /\ v = to_pyval (Some "ascending")).
Proof.
  apply (query_search_arguments demo_world "aoi/AOI.geojson" "20190201"
           "20190816" None (Some "ascending") []
           "POLYGON((0 0,0 1,1 1,0 0))" _ (Some [scene1; scene2])).
  vm_compute. tauto.
Defined.

(** ** Every way the script can run *)

Lemma effective_truthy (v : option string) :
  truthy v = true -> effective v = v.
Proof. unfold effective. now intros ->. Qed.

Lemma effective_falsy (v : option string) :
  truthy v = false -> effective v = None.
Proof. unfold effective. now intros ->. Qed.

Lemma bind_some_run {A : Type} (m : Py A) (h : list Event) :
  (m ≫= λ a, mret (Some a)) h =
  (match outcome m h with
   | Return a => Return (Some a)
   | Raise x => Raise x
   end, trace m h).
Proof.
  rewrite run_bind. unfold outcome, trace.
  destruct (m h) as [[a | x] t]; cbn; [now rewrite app_nil_r | reflexivity].
Qed.

(** The chain on the filters either stops on missing dates, or rejects the
    filters and leaves [products] unbound, or calls [query] once with the
    filters that were given non-empty. *)
Lemma main_query_cases w args h :
  main_query w args h =
  if negb (truthy (arg_start_date args)) || negb (truthy (arg_end_date args))
  then (Raise (SystemExit 2), [EParserError dates_missing])
  else if rejected_filter args
  then (Return None, [EPrint (validation_message args)])
  else
    let q := query w (str_of (arg_footprint args))
               (str_of (arg_start_date args)) (str_of (arg_end_date args))
               (effective (arg_product_type args))
               (effective (arg_pass_direction args)) in
    (match outcome q h with
     | Return ps => Return (Some ps)
     | Raise x => Raise x
     end, trace q h).
Proof.
  unfold main_query, rejected_filter, rejected_value, validation_message.
  destruct (negb (truthy (arg_start_date args)) ||
            negb (truthy (arg_end_date args))); [reflexivity |].
  destruct (truthy (arg_product_type args)) eqn:Ept,
           (truthy (arg_pass_direction args)) eqn:Epd;
    cbn [negb andb orb];
    rewrite ?(effective_truthy _ Ept), ?(effective_falsy _ Ept),
            ?(effective_truthy _ Epd), ?(effective_falsy _ Epd);
    repeat match goal with
           | |- context [str_in ?a ?b] => destruct (str_in a b)
           end;
    cbn [negb andb orb]; cbv zeta;
    first [ reflexivity | apply bind_some_run ].
Qed.

Lemma main_cases w args h :
  main w args h =
  if negb (truthy (arg_footprint args))
  then (Raise (SystemExit 2), [EParserError footprint_missing])
  else
    match main_query w args h with
    | (Raise x, t1) => (Raise x, t1)
    | (Return products, t1) =>
        (outcome (after_query w args products) (h ++ t1),
         t1 ++ trace (after_query w args products) (h ++ t1))
    end.
Proof.
  unfold main. fold (after_query w args).
  destruct (negb (truthy (arg_footprint args))); [reflexivity |].
  rewrite (run_bind_Return (mret tt) _ h tt [] eq_refl).
  cbn [app]. unfold outcome, trace. rewrite app_nil_r, run_bind.
  destruct (main_query w args h) as [[products | x] t1]; reflexivity.
Qed.

Lemma required_present_cases (args : Args) :
  required_present args =
  truthy (arg_footprint args) &&
  negb (negb (truthy (arg_start_date args)) ||
        negb (truthy (arg_end_date args))).
Proof.
  unfold required_present.
  destruct (truthy (arg_footprint args)), (truthy (arg_start_date args)),
           (truthy (arg_end_date args)); reflexivity.
Qed.

(** A required argument is missing: the script stops at [parser.error]. *)
Lemma main_run_missing w args h :
  required_present args = false ->
  main w args h =
  (Raise (SystemExit 2),
   [EParserError (if truthy (arg_footprint args) then dates_missing
                  else footprint_missing)]).
Proof.
  rewrite required_present_cases, main_cases, main_query_cases.
  destruct (truthy (arg_footprint args)); cbn [negb andb]; [| reflexivity].
  now intros ->%negb_false_iff.
Qed.

(** The filters are rejected: a message, then the rest with [products]
    unbound. *)
Lemma main_run_rejected w args h :
  required_present args = true ->
  rejected_filter args = true ->
  let t1 := [EPrint (validation_message args)] in
  main w args h =
  (outcome (after_query w args None) (h ++ t1),
   t1 ++ trace (after_query w args None) (h ++ t1)).
Proof.
  rewrite required_present_cases, main_cases, main_query_cases.
  intros [-> ->%negb_true_iff]%andb_prop ->. reflexivity.
Qed.

(** The filters are accepted: [query], then the rest with its result. *)
Lemma main_run_accepted w args h :
  required_present args = true ->
  rejected_filter args = false ->
  let q := query w (str_of (arg_footprint args))
             (str_of (arg_start_date args)) (str_of (arg_end_date args))
             (effective (arg_product_type args))
             (effective (arg_pass_direction args)) in
  main w args h =
  match outcome q h with
  | Return ps =>
      (outcome (after_query w args (Some ps)) (h ++ trace q h),
       trace q h ++ trace (after_query w args (Some ps)) (h ++ trace q h))
  | Raise x => (Raise x, trace q h)
  end.
Proof.
  rewrite required_present_cases, main_cases, main_query_cases.
  intros [-> ->%negb_true_iff]%andb_prop ->. cbn [negb]. cbv zeta.
  now destruct (outcome _ h).
Qed.

Lemma after_query_emits (P : Event -> bool) w args products :
  (forall ps, P (EInvoke (CallIsOnline ps)) = true) ->
  (forall ps,
      arg_download args = true ->
      P (EInvoke (CallDownload ps (chosen_outdir w args))) = true) ->
  (forall k, P (EEnviron k) = true) ->
  (forall a, P (ESentinelAPI a) = true) ->
  (arg_online args || arg_download args = true ->
   forall id r, P (EOdata id r) = true) ->
  (forall l, P (EPrint l) = true) ->
  (arg_download args = true ->
   forall id ok, P (EDownload id (chosen_outdir w args) ok) = true) ->
  P ECwd = true ->
  emits P (after_query w args products).
Proof.
  intros H1 H2 H3 H4 H5 H6 H7 H8. unfold after_query, chosen_outdir in *.
  apply emits_bind.
  { destruct (arg_online args); [| apply emits_ret].
    repeat first [ apply is_online_emits; auto | emits_step; auto ]. }
  intros _.
  destruct (arg_download args); cbn [andb]; [| apply emits_ret].
  rewrite orb_true_r in H5.
  destruct (truthy (arg_outdir args)); cbn [negb].
  - apply emits_bind; [emits_auto |]. intros ps.
    apply download_emits; auto.
  - apply emits_bind_returned; [emits_auto; auto |].
    intros path ->%path_cwd_returns.
    apply emits_bind; [emits_auto |]. intros ps.
    apply download_emits; auto.
Qed.

Lemma main_emits (P : Event -> bool) w args :
  (forall m, P (EParserError m) = true) ->
  emits P (main_query w args) ->
  (forall products, emits P (after_query w args products)) ->
  emits P (main w args).
Proof.
  intros H1 H2 H3. unfold main. fold (after_query w args).
  apply emits_bind; [emits_auto; auto |]. intros _.
  apply emits_bind; [exact H2 | exact H3].
Qed.

(** ** What reaches [query] *)

Lemma rejected_value_valid (valid : list string) (v : option string) :
  rejected_value valid v = false -> valid_value valid (effective v) = true.
Proof.
  unfold rejected_value, valid_value, effective.
  destruct v as [s |]; cbn; [| reflexivity].
  destruct (negb (String.eqb s "")); cbn; [| reflexivity].
  now destruct (str_in s valid).
Qed.

Lemma queries_app (a b : list Event) :
  queries (a ++ b) = queries a ++ queries b.
Proof. apply flat_map_app. Qed.

Lemma no_query_entry (t : list Event) :
  forallb (fun e => match e with
                    | EInvoke (CallQuery _ _ _ _ _) => false
                    | _ => true
                    end) t = true ->
  queries t = [].
Proof.
  apply forallb_flat_map_nil.
  intros [[] | | | | | | | | |] He; try reflexivity; discriminate.
Qed.

Lemma queries_query w fp s e pt pd h :
  queries (trace (query w fp s e pt pd) h) = [CallQuery fp s e pt pd].
Proof.
  unfold trace. rewrite query_cases. cbv zeta.
  destruct (environ w !! "user") as [u |]; [| reflexivity].
  destruct (environ w !! "password") as [p |]; [| reflexivity].
  cbn [snd]. rewrite queries_app. cbn. f_equal.
  apply no_query_entry, query_body_emits; auto.
Qed.

(** X5.  Whatever the command line, the script enters [query] at most
    once, and only with the footprint and both dates given, with the
    footprint and dates as given, and with filters that are each either
    absent or one of the valid values: a product type among GRD, SLC, OCN
    and a pass direction among ascending, descending.  An empty filter is
    passed on as absent. *)
Theorem main_queries_only_valid_filters w args h :
  length (queries (trace (main w args) h)) <= 1 /\
  forall c,
    In c (queries (trace (main w args) h)) ->
    c = CallQuery (str_of (arg_footprint args)) (str_of (arg_start_date args))
                  (str_of (arg_end_date args))
                  (effective (arg_product_type args))
                  (effective (arg_pass_direction args)) /\
    required_present args = true /\
    valid_value product_types (effective (arg_product_type args)) = true /\
    valid_value orbits (effective (arg_pass_direction args)) = true.
Proof.
  assert (Hafter : forall products h',
             queries (trace (after_query w args products) h') = []).
  { intros products h'. apply no_query_entry, after_query_emits; auto. }
  unfold trace at 1 2.
  destruct (required_present args) eqn:Hreq.
  2:{ rewrite (main_run_missing _ _ _ Hreq). split; [cbn; lia | intros c []]. }
  destruct (rejected_filter args) eqn:Hrej.
  { rewrite (main_run_rejected _ _ _ Hreq Hrej). cbn [snd app].
    change (queries (_ :: ?t)) with (queries t). rewrite Hafter.
    split; [cbn; lia | intros c []]. }
  rewrite (main_run_accepted _ _ _ Hreq Hrej). cbv zeta.
  match goal with
  | |- context [outcome ?q h] =>
      assert (Hq : queries (trace q h) = _) by apply queries_query;
      destruct (outcome q h)
  end; cbn [snd]; rewrite ?queries_app, ?Hafter, ?app_nil_r, Hq.
  all: split; [cbn; lia |].
  all: intros c [<- | []]; repeat split.
  all: apply rejected_value_valid; unfold rejected_filter in Hrej;
    now apply orb_false_elim in Hrej.
Qed.

Lemma main_queries_only_valid_filters_witness :
  [CallQuery "aoi/AOI.geojson" "20190201" "20190816" None None] =
  [CallQuery (str_of (arg_footprint empty_type_args))
     (str_of (arg_start_date empty_type_args))
     (str_of (arg_end_date empty_type_args))
     (effective (arg_product_type empty_type_args))
     (effective (arg_pass_direction empty_type_args))].
Proof.
  destruct (main_queries_only_valid_filters demo_world empty_type_args [])
    as [_ H].
  destruct (H (CallQuery "aoi/AOI.geojson" "20190201" "20190816" None None)
              (or_introl eq_refl)) as [Hc _].
  now rewrite Hc.
Defined.

(** ** Remote calls and the flags *)

Lemma filter_agree (P Q R : Event -> bool) (t : list Event) :
  (forall e, P e = true -> Q e = R e) ->
  forallb P t = true -> List.filter Q t = List.filter R t.
Proof.
  intros HQR. induction t as [| e t IH]; cbn; [reflexivity |].
  intros [He Ht]%andb_prop. now rewrite (HQR e He), IH.
Qed.

Lemma main_query_searches_only w args :
  emits (fun e => match e with
                  | EOdata _ _ | EDownload _ _ _ => false
                  | _ => true
                  end) (main_query w args).
Proof. apply main_query_emits; auto. Qed.

(** X6.  Without [--download] the script never calls [api.download];
    with neither [--download] nor [--online] its only remote calls are
    searches.  So nothing is fetched and no status is asked for unless
    the command line requests it. *)
Theorem main_remote_calls_follow_flags w args h :
  (arg_download args = false ->
   download_calls (trace (main w args) h) = [] /\
   download_invocations (trace (main w args) h) = []) /\
  (arg_online args = false -> arg_download args = false ->
   remote_calls (trace (main w args) h) = searches (trace (main w args) h) /\
   status_queries (trace (main w args) h) = []).
Proof.
  split.
  - intros Hd.
    assert (H : emits (fun e => match e with
                                | EDownload _ _ _
                                | EInvoke (CallDownload _ _) => false
                                | _ => true
                                end) (main w args)).
    { apply main_emits; auto.
      - apply main_query_emits; auto.
      - intros products. apply after_query_emits; auto; congruence. }
    specialize (H h). split; revert H; apply forallb_flat_map_nil;
      intros [[] | | | | | | | | |] He; try reflexivity; discriminate.
  - intros Ho Hd.
    assert (H : emits (fun e => match e with
                                | EOdata _ _ | EDownload _ _ _ => false
                                | _ => true
                                end) (main w args)).
    { apply main_emits; auto.
      - apply main_query_searches_only.
      - intros products. apply after_query_emits; auto;
          rewrite ?Ho, ?Hd; cbn; congruence. }
    specialize (H h). split.
    + revert H. apply filter_agree.
      intros [] He; try reflexivity; discriminate.
    + revert H. apply forallb_flat_map_nil.
      intros [] He; try reflexivity; discriminate.
Qed.

Lemma main_remote_calls_follow_flags_witness :
  download_calls (trace (main demo_world filtered_args) []) = [] /\
  status_queries (trace (main demo_world demo_args) []) = [].
Proof.
  split.
  - apply (proj1 (main_remote_calls_follow_flags demo_world filtered_args [])).
    reflexivity.
  - apply (proj2 (main_remote_calls_follow_flags demo_world demo_args []));
      reflexivity.
Defined.

Lemma download_calls_into (output : string) (t : list Event) :
  forallb (fun e => match e with
                    | EDownload _ d _ => String.eqb d output
                    | _ => true
                    end) t = true ->
  forall c, In c (download_calls t) -> snd c = output.
Proof.
  induction t as [| e t IH]; cbn; [tauto |].
  intros [He Ht]%andb_prop c Hin. apply in_app_or in Hin as [Hin | Hin].
  - destruct e; cbn in Hin; try tauto.
    destruct Hin as [<- | []]. now apply String.eqb_eq in He.
  - now apply IH.
Qed.

Lemma emits_weaken_list (P Q : Event -> bool) (t : list Event) :
  (forall e, P e = true -> Q e = true) ->
  forallb P t = true -> forallb Q t = true.
Proof.
  intros HPQ. induction t as [| e t IH]; cbn; [reflexivity |].
  intros [He Ht]%andb_prop. now rewrite (HPQ e He), IH.
Qed.

(** X7.  [is_online] never searches and never downloads, and [download]
    never searches: the only remote calls of [is_online] are status
    queries, and those of [download] are status queries and downloads
    into the directory it was given. *)
Theorem operations_keep_to_their_calls w products output h :
  searches (trace (is_online w products) h) = [] /\
  download_calls (trace (is_online w products) h) = [] /\
  searches (trace (download w products output) h) = [] /\
  forall c, In c (download_calls (trace (download w products output) h)) ->
            snd c = output.
Proof.
  assert (Ho : emits (fun e => match e with
                               | ESearch _ _ _ | EDownload _ _ _ => false
                               | _ => true
                               end) (is_online w products))
    by (apply is_online_emits; auto).
  assert (Hd : emits (fun e => match e with
                               | ESearch _ _ _ => false
                               | EDownload _ d _ => String.eqb d output
                               | _ => true
                               end) (download w products output)).
  { apply download_emits; auto. intros. apply String.eqb_refl. }
  specialize (Ho h). specialize (Hd h). repeat split.
  - revert Ho. apply forallb_filter_nil.
    intros [] He; try reflexivity; discriminate.
  - revert Ho. apply forallb_flat_map_nil.
    intros [] He; try reflexivity; discriminate.
  - revert Hd. apply forallb_filter_nil.
    intros [] He; try reflexivity; discriminate.
  - apply download_calls_into. revert Hd. apply emits_weaken_list.
    intros [] He; try reflexivity; try discriminate; exact He.
Qed.

(** X8.  In every run of the script, every call of [api.download] writes
    into one directory: the value of [--outdir] when it is non-empty, the
    current working directory otherwise. *)
Theorem main_downloads_into_chosen_outdir w args h :
  forall c, In c (download_calls (trace (main w args) h)) ->
            snd c = chosen_outdir w args.
Proof.
  apply download_calls_into. revert h.
  change (emits (fun e => match e with
                          | EDownload _ d _ =>
                              String.eqb d (chosen_outdir w args)
                          | _ => true
                          end) (main w args)).
  apply main_emits; auto.
  - apply main_query_emits; auto.
  - intros products. apply after_query_emits; auto.
    intros _ id ok. apply String.eqb_refl.
Qed.

Lemma main_downloads_into_chosen_outdir_witness :
  snd ("uuid-1", "/data/s1") = chosen_outdir demo_world outdir_args.
Proof.
  apply (main_downloads_into_chosen_outdir demo_world outdir_args []).
  vm_compute. tauto.
Defined.

(** ** Failed remote calls *)

Lemma remote_ok_answers (products : list Product) (metas : list Meta) :
  forallb remote_ok
    (map (fun rm => EOdata (uuid (fst rm)) (Some (snd rm)))
         (combine products metas)) = true.
Proof. induction (combine products metas) as [| x l IH]; cbn; auto. Qed.

Lemma printed_answers (products : list Product) (metas : list Meta) :
  printed
    (map (fun rm => EOdata (uuid (fst rm)) (Some (snd rm)))
         (combine products metas)) = [].
Proof.
  unfold printed. induction (combine products metas) as [| x l IH]; cbn; auto.
Qed.

(** The loop of [is_online] either gets an answer for every record, or
    stops at the first status query that raises. *)
Lemma is_online_loop_outcomes w api products :
  forall on off h,
    (exists metas,
        length metas = length products /\
        is_online_loop w api products on off h =
          (Return
             (on ++ map meta_title (List.filter meta_Online metas),
              off ++ map meta_title
                       (List.filter (fun m => negb (meta_Online m)) metas)),
           map (fun rm => EOdata (uuid (fst rm)) (Some (snd rm)))
               (combine products metas))) \/
    (exists metas id,
        length metas < length products /\
        is_online_loop w api products on off h =
          (Raise (ExternalError "get_product_odata"),
           map (fun rm => EOdata (uuid (fst rm)) (Some (snd rm)))
               (combine products metas) ++ [EOdata id None])).
Proof.
  induction products as [| row rest IH]; intros on off h.
  - left. exists []. split; [reflexivity |]. cbn. now rewrite !app_nil_r.
  - cbn [is_online_loop]. rewrite run_bind, api_get_product_odata_run.
    destruct (remote_odata w h api (uuid row)) as [m |].
    2:{ right. exists [], (uuid row). split; [cbn; lia | reflexivity]. }
    cbn [fst snd].
    destruct (meta_Online m) eqn:Hm;
      match goal with
      | |- context [is_online_loop w api rest ?a ?b ?h'] =>
          destruct (IH a b h') as [(metas & Hlen & Hrun) |
                                   (metas & id & Hlen & Hrun)]
      end.
    all: try (left; exists (m :: metas); split; [cbn; lia |];
              rewrite Hrun; cbn; rewrite Hm; cbn; now rewrite <- app_assoc).
    all: right; exists (m :: metas), id; split; [cbn; lia |];
      rewrite Hrun; reflexivity.
Qed.

Lemma forallb_remote_ok_snoc (t : list Event) (e : Event) :
  remote_ok e = false -> forallb remote_ok (t ++ [e]) = false.
Proof.
  intros He. rewrite forallb_app. cbn. rewrite He.
  now rewrite andb_false_r.
Qed.

Lemma is_online_report_ok (on off : list string) (h : list Event) :
  forallb remote_ok (trace (is_online_report on off) h) = true.
Proof.
  assert (H : emits (fun e => match e with EPrint _ => true | _ => false end)
                    (is_online_report on off))
    by (apply is_online_report_emits; auto).
  specialize (H h). revert H. apply emits_weaken_list.
  intros [] He; try reflexivity; discriminate.
Qed.

(** X9.  With the credentials set, [is_online] returns exactly when every
    status query it made was answered.  When one raises, that query is
    the last thing [is_online] does: the records after it are not asked
    about, and nothing at all is printed, not even for the records
    already answered. *)
Theorem is_online_stops_at_failed_query w products h u p :
  credentials w u p ->
  (outcome (is_online w products) h = Return tt <->
   forallb remote_ok (trace (is_online w products) h) = true) /\
  (forallb remote_ok (trace (is_online w products) h) = false ->
   printed (trace (is_online w products) h) = [] /\
   length (status_queries (trace (is_online w products) h))
     <= length products /\
   exists t0 id,
     trace (is_online w products) h = t0 ++ [EOdata id None] /\
     forallb remote_ok t0 = true).
Proof.
  intros Hc. unfold outcome, trace.
  rewrite (is_online_run _ _ _ _ _ Hc). cbn [fst snd].
  set (h' := h ++ prelude (CallIsOnline products) u p).
  unfold is_online_body, outcome, trace. rewrite run_bind.
  destruct (is_online_loop_outcomes w (session u p) products [] [] h')
    as [(metas & Hlen & Hrun) | (metas & id & Hlen & Hrun)]; rewrite Hrun.
  - cbn [fst snd].
    destruct (is_online_report_run
                (map meta_title (List.filter meta_Online metas))
                (map meta_title
                   (List.filter (fun m => negb (meta_Online m)) metas))
                (h' ++ map (fun rm => EOdata (uuid (fst rm)) (Some (snd rm)))
                           (combine products metas))) as (Hout & _ & _).
    unfold outcome in Hout. cbn [app] in *. rewrite Hout.
    assert (Hok : forallb remote_ok
              (prelude (CallIsOnline products) u p ++
               map (fun rm => EOdata (uuid (fst rm)) (Some (snd rm)))
                   (combine products metas) ++
               snd (is_online_report
                      (map meta_title (List.filter meta_Online metas))
                      (map meta_title
                         (List.filter (fun m => negb (meta_Online m)) metas))
                      (h' ++ map (fun rm => EOdata (uuid (fst rm))
                                              (Some (snd rm)))
                                 (combine products metas)))) = true).
    { rewrite !forallb_app, remote_ok_answers. cbn.
      apply is_online_report_ok. }
    split; [tauto |]. rewrite Hok. discriminate.
  - cbn [fst snd]. split.
    + split; [discriminate |]. intros Hok. exfalso.
      rewrite app_assoc, forallb_remote_ok_snoc in Hok; [discriminate | auto].
    + intros _. repeat split.
      * rewrite !printed_app, printed_answers. reflexivity.
      * rewrite !status_queries_app, status_queries_answers. cbn.
        rewrite length_app, length_combine, !length_map. cbn. lia.
      * exists (prelude (CallIsOnline products) u p ++
                map (fun rm => EOdata (uuid (fst rm)) (Some (snd rm)))
                    (combine products metas)), id.
        split; [now rewrite <- app_assoc |].
        rewrite forallb_app, remote_ok_answers. reflexivity.
Qed.

Lemma is_online_stops_at_failed_query_witness :
  printed (trace (is_online demo_world [scene1; scene3; scene2]) []) = [] /\
  exists t0 id,
    trace (is_online demo_world [scene1; scene3; scene2]) [] =
      t0 ++ [EOdata id None] /\
    forallb remote_ok t0 = true.
Proof.
  destruct (is_online_stops_at_failed_query demo_world
              [scene1; scene3; scene2] [] "alice" "secret"
              (conj eq_refl eq_refl)) as [_ H].
  destruct (H eq_refl) as (Hp & _ & Ht). split; assumption.
Defined.

(** The loop of [download] either completes with every remote call
    answered, or stops at the first one that raises. *)
Lemma download_loop_outcomes w api output products :
  forall h,
    (outcome (download_loop w api products output) h = Return tt /\
     forallb remote_ok (trace (download_loop w api products output) h) = true)
    \/
    (exists t0 e x,
        download_loop w api products output h = (Raise x, t0 ++ [e]) /\
        remote_ok e = false /\ forallb remote_ok t0 = true).
Proof.
  induction products as [| row rest IH]; intros h.
  - left. split; reflexivity.
  - unfold outcome, trace. rewrite download_loop_cons.
    destruct (remote_odata w h api (uuid row)) as [m |].
    2:{ right. exists [], (EOdata (uuid row) None). eexists.
        repeat split. }
    cbv zeta. destruct (meta_Online m).
    + destruct (remote_download w _ api (uuid row) output) eqn:Hok.
      * match goal with
        | |- context [trace (download_loop w api rest output) ?h'] =>
            destruct (IH h') as [[Ho Ht] | (t0 & e & x & Hrun & He & Ht0)]
        end.
        -- left. cbn [fst snd]. rewrite forallb_app, Ht. auto.
        -- right. unfold outcome, trace. rewrite Hrun. cbn [fst snd].
           eexists (_ ++ t0), e, x. rewrite <- app_assoc.
           repeat split; [exact He |]. rewrite forallb_app, Ht0. reflexivity.
      * right.
        exists [EOdata (uuid row) (Some m);
                EPrint (online_notice (meta_title m))],
               (EDownload (uuid row) output false).
        eexists. repeat split.
    + match goal with
      | |- context [trace (download_loop w api rest output) ?h'] =>
          destruct (IH h') as [[Ho Ht] | (t0 & e & x & Hrun & He & Ht0)]
      end.
      * left. cbn [fst snd]. rewrite forallb_app, Ht. auto.
      * right. unfold outcome, trace. rewrite Hrun. cbn [fst snd].
        eexists (_ ++ t0), e, x. rewrite <- app_assoc.
        repeat split; [exact He |]. rewrite forallb_app, Ht0. reflexivity.
Qed.

(** X10.  With the credentials set, [download] returns exactly when none
    of its status queries and downloads raised.  The first call that
    raises is the last thing [download] does: the calls before it all
    succeeded and are not undone, and the records after it are neither
    asked about nor downloaded. *)
Theorem download_stops_at_failed_call w products output h u p :
  credentials w u p ->
  (outcome (download w products output) h = Return tt <->
   forallb remote_ok (trace (download w products output) h) = true) /\
  (forallb remote_ok (trace (download w products output) h) = false ->
   exists t0 e,
     trace (download w products output) h = t0 ++ [e] /\
     remote_ok e = false /\ forallb remote_ok t0 = true).
Proof.
  intros Hc. unfold outcome, trace.
  rewrite (download_run _ _ _ _ _ _ Hc). cbn [fst snd].
  set (pre := prelude (CallDownload products output) u p).
  destruct (download_loop_outcomes w (session u p) output products (h ++ pre))
    as [[Ho Ht] | (t0 & e & x & Hrun & He & Ht0)].
  - rewrite Ho. change (forallb remote_ok (pre ++ ?t))
      with (forallb remote_ok t). rewrite Ht.
    split; [tauto | discriminate].
  - unfold outcome, trace. rewrite Hrun. cbn [fst snd].
    change (forallb remote_ok (pre ++ ?t)) with (forallb remote_ok t).
    rewrite (forallb_remote_ok_snoc t0 e He). split.
    + split; discriminate.
    + intros _. exists (pre ++ t0), e. rewrite <- app_assoc.
      repeat split; [exact He |].
      change (forallb remote_ok (pre ++ ?t)) with (forallb remote_ok t).
      exact Ht0.
Qed.

Lemma download_stops_at_failed_call_witness :
  exists t0 e,
    trace (download broken_download_world [scene1; scene2] "/data/s1") [] =
      t0 ++ [e] /\
    remote_ok e = false /\ forallb remote_ok t0 = true.
Proof.
  destruct (download_stops_at_failed_call broken_download_world
              [scene1; scene2] "/data/s1" [] "alice" "secret"
              (conj eq_refl eq_refl)) as [_ H].
  exact (H eq_refl).
Defined.

(** ** What [is_online] prints *)

Lemma printed_lines (l : list string) :
  printed (map (fun x => EPrint [x]) l) = map (fun x => [x]) l.
Proof.
  unfold printed. induction l as [| x l IH]; simpl;
    [reflexivity | now rewrite IH].
Qed.

Lemma is_online_report_printed (on off : list string) (h : list Event) :
  printed (trace (is_online_report on off) h) =
  match on, off with
  | _ :: _, [] => all_online_line (length on) :: map (fun x => [x]) on
  | [], _ :: _ => all_offline_line (length off) :: map (fun x => [x]) off
  | _, _ =>
      mixed_line (length on) (length off) ::
      ["Online products"; nl] :: map (fun x => [x]) on ++
      ["offline products"; nl] :: map (fun x => [x]) off
  end.
Proof.
  unfold is_online_report, trace.
  destruct on as [| x on], off as [| y off];
    cbn [length Nat.eqb Nat.ltb Nat.leb andb]; run_prints;
    rewrite ?printed_app, ?printed_lines; reflexivity.
Qed.

Lemma status_answers_online (products : list Product) (metas : list Meta) :
  length metas = length products ->
  forallb said_online (combine (map uuid products) (map Some metas)) =
  forallb meta_Online metas.
Proof.
  revert metas. induction products as [| r products IH];
    intros [| m metas] Hlen; try discriminate Hlen; [reflexivity |].
  cbn. unfold said_online at 1. cbn. f_equal. apply IH. cbn in Hlen. lia.
Qed.

Lemma status_answers_offline (products : list Product) (metas : list Meta) :
  length metas = length products ->
  forallb said_offline (combine (map uuid products) (map Some metas)) =
  forallb (fun m => negb (meta_Online m)) metas.
Proof.
  revert metas. induction products as [| r products IH];
    intros [| m metas] Hlen; try discriminate Hlen; [reflexivity |].
  cbn. unfold said_offline at 1. cbn. f_equal. apply IH. cbn in Hlen. lia.
Qed.

Lemma filter_all {A : Type} (f : A -> bool) (l : list A) :
  forallb f l = true ->
  List.filter f l = l /\ List.filter (fun x => negb (f x)) l = [].
Proof.
  induction l as [| x l IH]; cbn; [auto |].
  intros [Hx Hl]%andb_prop. rewrite Hx. cbn.
  destruct (IH Hl) as [-> ->]. auto.
Qed.

Lemma filter_none {A : Type} (f : A -> bool) (l : list A) :
  forallb (fun x => negb (f x)) l = true ->
  List.filter f l = [] /\ List.filter (fun x => negb (f x)) l = l.
Proof.
  induction l as [| x l IH]; cbn; [auto |].
  intros [Hx Hl]%andb_prop. rewrite Hx.
  apply negb_true_iff in Hx. rewrite Hx.
  destruct (IH Hl) as [-> ->]. auto.
Qed.

(** The run of [is_online] when every status query is answered, in terms
    of the answers. *)
Lemma is_online_answered w products h u p (Q : string * option Meta -> bool) :
  credentials w u p ->
  (forall q, Q q = true -> answered q = true) ->
  forallb Q (status_queries (trace (is_online w products) h)) = true ->
  exists metas,
    length metas = length products /\
    status_queries (trace (is_online w products) h) =
      combine (map uuid products) (map Some metas) /\
    outcome (is_online w products) h = Return tt /\
    printed (trace (is_online w products) h) =
      printed (trace (is_online_report
                        (map meta_title (List.filter meta_Online metas))
                        (map meta_title
                           (List.filter (fun m => negb (meta_Online m)) metas)))
                     []).
Proof.
  intros Hc HQ. unfold outcome, trace.
  rewrite (is_online_run _ _ _ _ _ Hc). cbn [fst snd].
  set (h' := h ++ prelude (CallIsOnline products) u p).
  unfold is_online_body, outcome, trace. rewrite run_bind.
  destruct (is_online_loop_outcomes w (session u p) products [] [] h')
    as [(metas & Hlen & Hrun) | (metas & id & Hlen & Hrun)]; rewrite Hrun;
    cbn [fst snd app].
  - intros _. exists metas.
    match goal with
    | |- context [is_online_report ?on ?off ?hh] =>
        destruct (is_online_report_run on off hh) as (Hout & _ & Hsq);
        pose proof (is_online_report_printed on off hh) as Hp1;
        pose proof (is_online_report_printed on off []) as Hp2
    end.
    unfold outcome, trace in *.
    repeat split.
    + exact Hlen.
    + change (status_queries (prelude (CallIsOnline products) u p ++ ?t))
        with (status_queries t).
      rewrite status_queries_app, Hsq, app_nil_r.
      apply status_queries_answers.
    + exact Hout.
    + change (printed (prelude (CallIsOnline products) u p ++ ?t))
        with (printed t).
      rewrite printed_app, printed_answers, Hp1, Hp2. reflexivity.
  - change (status_queries (prelude (CallIsOnline products) u p ++ ?t))
      with (status_queries t).
    rewrite status_queries_app, forallb_app. cbn.
    intros H. exfalso. apply andb_prop in H as [_ H].
    apply andb_prop in H as [H _]. apply HQ in H. discriminate H.
Qed.

(** X11.  When there is at least one record and every status query is
    answered "online", [is_online] prints the line
    [ All products requested(n) are online], with [n] the number of
    records, followed by the titles in the order of the result set, and
    nothing else: no heading and no mention of offline products. *)
Theorem is_online_all_online w products h u p :
  credentials w u p ->
  products <> [] ->
  forallb said_online (status_queries (trace (is_online w products) h)) = true ->
  exists metas,
    length metas = length products /\
    status_queries (trace (is_online w products) h) =
      combine (map uuid products) (map Some metas) /\
    outcome (is_online w products) h = Return tt /\
    printed (trace (is_online w products) h) =
      all_online_line (length products) ::
      map (fun m => [meta_title m]) metas.
Proof.
  intros Hc Hne Hall.
  destruct (is_online_answered w products h u p said_online Hc) as
    (metas & Hlen & Hsq & Hout & Hpr); [| exact Hall |].
  { intros [id [m |]]; cbn; auto. }
  exists metas. repeat split; try assumption.
  rewrite Hsq, (status_answers_online _ _ Hlen) in Hall.
  destruct (filter_all _ _ Hall) as [Hon Hoff].
  rewrite Hpr, is_online_report_printed, Hon, Hoff. cbn [map].
  destruct metas as [| m metas].
  - destruct products; [congruence | discriminate Hlen].
  - rewrite length_map, Hlen, map_map. reflexivity.
Qed.

Lemma is_online_all_online_witness :
  exists metas,
    length metas = 2 /\
    printed (trace (is_online all_online_world [scene1; scene2]) []) =
      all_online_line 2 :: map (fun m => [meta_title m]) metas.
Proof.
  destruct (is_online_all_online all_online_world [scene1; scene2] []
              "alice" "secret" (conj eq_refl eq_refl)
              ltac:(discriminate) eq_refl)
    as (metas & Hlen & _ & _ & Hp).
  exists metas. split; [exact Hlen | exact Hp].
Defined.

(** X12.  When there is at least one record and every status query is
    answered "offline", [is_online] prints the line
    [All products requested (n) are offline], with [n] the number of
    records, followed by the titles in the order of the result set, and
    nothing else. *)
Theorem is_online_all_offline w products h u p :
  credentials w u p ->
  products <> [] ->
  forallb said_offline (status_queries (trace (is_online w products) h)) = true ->
  exists metas,
    length metas = length products /\
    status_queries (trace (is_online w products) h) =
      combine (map uuid products) (map Some metas) /\
    outcome (is_online w products) h = Return tt /\
    printed (trace (is_online w products) h) =
      all_offline_line (length products) ::
      map (fun m => [meta_title m]) metas.
Proof.
  intros Hc Hne Hall.
  destruct (is_online_answered w products h u p said_offline Hc) as
    (metas & Hlen & Hsq & Hout & Hpr); [| exact Hall |].
  { intros [id [m |]]; cbn; auto. }
  exists metas. repeat split; try assumption.
  rewrite Hsq, (status_answers_offline _ _ Hlen) in Hall.
  destruct (filter_none _ _ Hall) as [Hon Hoff].
  rewrite Hpr, is_online_report_printed, Hon, Hoff. cbn [map].
  destruct metas as [| m metas].
  - destruct products; [congruence | discriminate Hlen].
  - rewrite length_map, Hlen, map_map. reflexivity.
Qed.

Lemma is_online_all_offline_witness :
  exists metas,
    length metas = 2 /\
    printed (trace (is_online all_offline_world [scene1; scene2]) []) =
      all_offline_line 2 :: map (fun m => [meta_title m]) metas.
Proof.
  destruct (is_online_all_offline all_offline_world [scene1; scene2] []
              "alice" "secret" (conj eq_refl eq_refl)
              ltac:(discriminate) eq_refl)
    as (metas & Hlen & _ & _ & Hp).
  exists metas. split; [exact Hlen | exact Hp].
Defined.

(** ** The stages after the query *)

Lemma after_query_unbound w args h :
  after_query w args None h =
  if arg_online args then (Raise (NameError "products"), [])
  else if arg_download args then
    (Raise (NameError "products"),
     if truthy (arg_outdir args) then [] else [ECwd])
  else (Return tt, []).
Proof.
  unfold after_query.
  destruct (arg_online args), (arg_download args),
           (truthy (arg_outdir args)); reflexivity.
Qed.

Lemma outcome_read_bound {A : Type} ps (k : list Product -> Py A) h :
  outcome (read_products (Some ps) ≫= k) h = outcome (k ps) h.
Proof.
  rewrite outcome_bind. cbn. now rewrite app_nil_r.
Qed.

Lemma trace_read_bound {A : Type} ps (k : list Product -> Py A) h :
  trace (read_products (Some ps) ≫= k) h = trace (k ps) h.
Proof.
  rewrite trace_bind. cbn. now rewrite app_nil_r.
Qed.

Lemma after_query_bound w args ps h :
  after_query w args (Some ps) h =
  let t2 := if arg_online args then trace (is_online w ps) h else [] in
  let o2 := if arg_online args then outcome (is_online w ps) h
            else Return tt in
  match o2 with
  | Raise x => (Raise x, t2)
  | Return _ =>
      if arg_download args then
        let pre := if truthy (arg_outdir args) then [] else [ECwd] in
        let d := download w ps (chosen_outdir w args) in
        (outcome d (h ++ t2 ++ pre), t2 ++ pre ++ trace d (h ++ t2 ++ pre))
      else (Return tt, t2)
  end.
Proof.
  rewrite (run_eta (after_query w args (Some ps))).
  unfold after_query, chosen_outdir. rewrite outcome_bind, trace_bind.
  assert (Ho : outcome (if arg_online args
                        then read_products (Some ps) ≫= λ ps0, is_online w ps0
                        else mret ()) h =
               if arg_online args then outcome (is_online w ps) h
               else Return tt).
  { destruct (arg_online args); [apply outcome_read_bound | reflexivity]. }
  assert (Ht : trace (if arg_online args
                      then read_products (Some ps) ≫= λ ps0, is_online w ps0
                      else mret ()) h =
               if arg_online args then trace (is_online w ps) h else []).
  { destruct (arg_online args); [apply trace_read_bound | reflexivity]. }
  rewrite Ho, Ht. cbv zeta.
  destruct (if arg_online args then outcome (is_online w ps) h else Return tt)
    as [[] | x]; [| now rewrite app_nil_r].
  destruct (arg_download args); cbn [andb];
    [| now rewrite app_nil_r].
  destruct (truthy (arg_outdir args)); cbn [negb app].
  - rewrite outcome_read_bound, trace_read_bound, app_nil_r. reflexivity.
  - rewrite outcome_bind, trace_bind.
    change (outcome (path_cwd w) ?hh) with (Return (A := string) (cwd w)).
    change (trace (path_cwd w) ?hh) with [ECwd]. cbv iota.
    rewrite outcome_read_bound, trace_read_bound, <- !app_assoc.
    reflexivity.
Qed.

Lemma invocations_app (a b : list Event) :
  invocations (a ++ b) = invocations a ++ invocations b.
Proof. apply flat_map_app. Qed.

Lemma no_invocation (t : list Event) :
  forallb past_prelude t = true -> invocations t = [].
Proof.
  apply forallb_flat_map_nil. intros [] H; try reflexivity; discriminate.
Qed.

Lemma invocations_with_session {A : Type} w c (body : Api -> Py A) h :
  (forall api, emits past_prelude (body api)) ->
  invocations
    (trace (emit (EInvoke c);;
            user ← os_environ w "user";
            password ← os_environ w "password";
            api ← sentinel_api user password;
            body api) h) = [c].
Proof.
  intros Hb. unfold trace. rewrite with_session_run.
  destruct (environ w !! "user") as [u |]; [| reflexivity].
  destruct (environ w !! "password") as [p |]; [| reflexivity].
  cbn [snd]. rewrite invocations_app. cbn. f_equal.
  apply no_invocation, Hb.
Qed.

Lemma invocations_query w fp s e pt pd h :
  invocations (trace (query w fp s e pt pd) h) = [CallQuery fp s e pt pd].
Proof.
  apply invocations_with_session. intros api.
  apply query_body_emits; auto.
Qed.

Lemma invocations_is_online w ps h :
  invocations (trace (is_online w ps) h) = [CallIsOnline ps].
Proof.
  apply invocations_with_session. intros api.
  apply is_online_body_emits; auto.
Qed.

Lemma invocations_download w ps out h :
  invocations (trace (download w ps out) h) = [CallDownload ps out].
Proof.
  apply invocations_with_session. intros api.
  apply download_loop_emits; auto.
Qed.

Lemma searches_app (a b : list Event) :
  searches (a ++ b) = searches a ++ searches b.
Proof. apply List.filter_app. Qed.

Lemma remote_ok_split (t : list Event) :
  forallb remote_ok t = true ->
  forallb answered (status_queries t) = true /\
  forallb download_ok t = true.
Proof.
  induction t as [| e t IH]; cbn; [auto |].
  intros [He Ht]%andb_prop. destruct (IH Ht) as [H1 H2].
  destruct e as [| | | | | id [m |] | id d [|] | | |]; cbn in *;
    try discriminate He; auto.
Qed.

Lemma map_fst_combine {A B : Type} (l : list A) (l' : list B) :
  length l' = length l -> map fst (combine l l') = l.
Proof.
  revert l'. induction l as [| x l IH]; intros [| y l'] H;
    try discriminate H; [reflexivity |].
  cbn. f_equal. apply IH. cbn in H. lia.
Qed.

(** A run of [query] that returns. *)
Lemma query_returns w fp s e pt pd h ps :
  outcome (query w fp s e pt pd) h = Return ps ->
  forallb remote_ok (trace (query w fp s e pt pd) h) = true /\
  status_queries (trace (query w fp s e pt pd) h) = [] /\
  exists area kwargs,
    searches (trace (query w fp s e pt pd) h) =
      [ESearch area kwargs (Some ps)].
Proof.
  unfold outcome, trace. query_split; intros Hr';
    try discriminate Hr'.
  injection Hr' as <-. cbn. eauto.
Qed.

(** A run of [is_online] that returns. *)
Lemma is_online_returns w ps h :
  outcome (is_online w ps) h = Return tt ->
  forallb remote_ok (trace (is_online w ps) h) = true /\
  map fst (status_queries (trace (is_online w ps) h)) = map uuid ps.
Proof.
  unfold outcome, trace, is_online. rewrite with_session_run.
  destruct (environ w !! "user") as [u |]; [| discriminate].
  destruct (environ w !! "password") as [p |]; [| discriminate].
  cbn [fst snd].
  set (h' := h ++ prelude (CallIsOnline ps) u p).
  unfold is_online_body, outcome, trace. rewrite run_bind.
  destruct (is_online_loop_outcomes w (session u p) ps [] [] h')
    as [(metas & Hlen & Hrun) | (metas & id & Hlen & Hrun)]; rewrite Hrun;
    cbn [fst snd]; [| discriminate].
  intros _.
  match goal with
  | |- context [is_online_report ?on ?off ?hh] =>
      destruct (is_online_report_run on off hh) as (_ & _ & Hsq);
      pose proof (is_online_report_ok on off hh) as Hok
  end.
  unfold trace in *. split.
  - rewrite !forallb_app, remote_ok_answers, Hok. reflexivity.
  - rewrite !status_queries_app, Hsq, status_queries_answers, app_nil_r.
    cbn. apply map_fst_combine. now rewrite !length_map.
Qed.

(** A run of [download] that returns. *)
Lemma download_returns w ps out h :
  outcome (download w ps out) h = Return tt ->
  forallb remote_ok (trace (download w ps out) h) = true /\
  map fst (status_queries (trace (download w ps out) h)) = map uuid ps.
Proof.
  unfold outcome, trace, download. rewrite with_session_run.
  destruct (environ w !! "user") as [u |]; [| discriminate].
  destruct (environ w !! "password") as [p |]; [| discriminate].
  cbn [fst snd].
  set (pre := prelude (CallDownload ps out) u p).
  destruct (download_loop_outcomes w (session u p) out ps (h ++ pre))
    as [[Ho Ht] | (t0 & e & x & Hrun & He & Ht0)].
  2:{ unfold outcome. rewrite Hrun. discriminate. }
  intros _. split.
  - change (forallb remote_ok (pre ++ ?t)) with (forallb remote_ok t).
    exact Ht.
  - change (status_queries (pre ++ ?t)) with (status_queries t).
    destruct (download_loop_run w (session u p) out ps (h ++ pre))
      as (answers & Hlen & Hsq & _ & _ & Hret).
    destruct (remote_ok_split _ Ht) as [Ha Hd].
    destruct (Hret Ha Hd) as [_ Hlen'].
    rewrite Hsq. apply map_fst_combine. now rewrite length_map.
Qed.

(** ** Runs of the script that end normally *)

(** What a run that ends normally is made of, when the filters were
    accepted: a [query] that returned, then the online check and the
    download, each present when requested and each having returned. *)
Lemma main_returns_stages w args h :
  outcome (main w args) h = Return tt ->
  rejected_filter args = false ->
  exists ps tq,
    let q := query w (str_of (arg_footprint args))
               (str_of (arg_start_date args)) (str_of (arg_end_date args))
               (effective (arg_product_type args))
               (effective (arg_pass_direction args)) in
    let o := is_online w ps in
    let d := download w ps (chosen_outdir w args) in
    let to := if arg_online args then trace o (h ++ tq) else [] in
    let pre := if truthy (arg_outdir args) then [] else [ECwd] in
    let td := if arg_download args
              then pre ++ trace d (h ++ tq ++ to ++ pre) else [] in
    tq = trace q h /\
    outcome q h = Return ps /\
    (arg_online args = true -> outcome o (h ++ tq) = Return tt) /\
    (arg_download args = true ->
     outcome d (h ++ tq ++ to ++ pre) = Return tt) /\
    trace (main w args) h = tq ++ to ++ td.
Proof.
  intros Hret Hrej. unfold outcome, trace in Hret |- *.
  destruct (required_present args) eqn:Hreq.
  2:{ rewrite (main_run_missing _ _ _ Hreq) in Hret. discriminate Hret. }
  rewrite (main_run_accepted _ _ _ Hreq Hrej) in Hret |- *. cbv zeta in *.
  match type of Hret with
  | context [outcome ?q h] =>
      destruct (outcome q h) as [ps |] eqn:Hq; [| discriminate Hret];
      exists ps, (trace q h)
  end.
  cbn [fst snd] in *. unfold outcome, trace in Hret |- *.
  rewrite after_query_bound in Hret |- *. cbv zeta in *.
  destruct (arg_online args); cbn [fst snd] in *.
  - destruct (outcome (is_online w ps) _) eqn:Ho; [| discriminate Hret].
    unfold outcome in Ho. destruct a.
    destruct (arg_download args); cbn [fst snd] in *.
    + unfold outcome, trace in *. rewrite <- !app_assoc in *.
      repeat split; auto.
    + rewrite app_nil_r. repeat split; auto. discriminate.
  - destruct (arg_download args); cbn [fst snd app] in *.
    + unfold outcome, trace in *. rewrite <- ?app_assoc in *.
      repeat split; auto. discriminate.
    + rewrite app_nil_r. repeat split; auto; discriminate.
Qed.

Lemma main_returns_rejected w args h :
  outcome (main w args) h = Return tt ->
  rejected_filter args = true ->
  arg_online args = false /\ arg_download args = false /\
  trace (main w args) h = [EPrint (validation_message args)].
Proof.
  intros Hret Hrej. unfold outcome, trace in Hret |- *.
  destruct (required_present args) eqn:Hreq.
  2:{ rewrite (main_run_missing _ _ _ Hreq) in Hret. discriminate Hret. }
  rewrite (main_run_rejected _ _ _ Hreq Hrej) in Hret |- *. cbv zeta in *.
  unfold outcome, trace in *. rewrite after_query_unbound in *.
  destruct (arg_online args); [discriminate Hret |].
  destruct (arg_download args); [discriminate Hret |].
  auto.
Qed.

Lemma main_returns_search w args h :
  outcome (main w args) h = Return tt ->
  rejected_filter args = false ->
  forall ps,
    outcome (query w (str_of (arg_footprint args))
               (str_of (arg_start_date args)) (str_of (arg_end_date args))
               (effective (arg_product_type args))
               (effective (arg_pass_direction args))) h = Return ps ->
    exists area kwargs,
      searches (trace (main w args) h) = [ESearch area kwargs (Some ps)].
Proof.
  intros Hret Hrej ps Hq.
  destruct (main_returns_stages _ _ _ Hret Hrej)
    as (ps' & tq & -> & Hq' & Ho & Hd & Ht).
  cbv zeta in *. rewrite Hq in Hq'. injection Hq' as <-.
  destruct (query_returns _ _ _ _ _ _ _ _ Hq)
    as (_ & _ & area & kwargs & Hqs).
  exists area, kwargs. rewrite Ht, !searches_app, Hqs.
  assert (Hos : forall hh, searches (trace (is_online w ps) hh) = [] /\
                           searches (trace (download w ps
                                       (chosen_outdir w args)) hh) = []).
  { intros hh. split.
    - apply (forallb_filter_nil
               (fun e => match e with ESearch _ _ _ => false | _ => true end)).
      + intros [] He; try reflexivity; discriminate.
      + apply is_online_emits; auto.
    - apply (forallb_filter_nil
               (fun e => match e with ESearch _ _ _ => false | _ => true end)).
      + intros [] He; try reflexivity; discriminate.
      + apply download_emits; auto. }
  destruct (arg_online args), (arg_download args);
    rewrite ?searches_app, ?(proj1 (Hos _)), ?(proj2 (Hos _));
    now destruct (truthy (arg_outdir args)).
Qed.

(** X13.  A run of the script that ends normally made no remote call that
    raised.  Either the filters were rejected, no stage was requested and
    all the run did was print the validation message; or the run is one
    search, then the online check if requested, then the download if
    requested, in that order, and both stages received exactly the
    products the search returned, the download with the chosen
    directory. *)
Theorem main_normal_exit w args h :
  outcome (main w args) h = Return tt ->
  forallb remote_ok (trace (main w args) h) = true /\
  ((rejected_filter args = true /\
    arg_online args = false /\ arg_download args = false /\
    trace (main w args) h = [EPrint (validation_message args)]) \/
   (rejected_filter args = false /\
    exists area kwargs ps,
      searches (trace (main w args) h) = [ESearch area kwargs (Some ps)] /\
      invocations (trace (main w args) h) =
        CallQuery (str_of (arg_footprint args)) (str_of (arg_start_date args))
                  (str_of (arg_end_date args))
                  (effective (arg_product_type args))
                  (effective (arg_pass_direction args)) ::
        (if arg_online args then [CallIsOnline ps] else []) ++
        (if arg_download args
         then [CallDownload ps (chosen_outdir w args)] else []))).
Proof.
  intros Hret. destruct (rejected_filter args) eqn:Hrej.
  - destruct (main_returns_rejected _ _ _ Hret Hrej) as (Ho & Hd & Ht).
    rewrite Ht. split; [reflexivity | left; auto].
  - destruct (main_returns_stages _ _ _ Hret Hrej)
      as (ps & tq & -> & Hq & Ho & Hd & Ht).
    cbv zeta in *. rewrite Ht.
    destruct (query_returns _ _ _ _ _ _ _ _ Hq) as (Hqok & _ & _).
    destruct (main_returns_search _ _ _ Hret Hrej ps Hq)
      as (area & kwargs & Hs).
    rewrite Ht in Hs.
    split; [| right; split; [reflexivity |]; exists area, kwargs, ps; split].
    + rewrite !forallb_app, Hqok. cbn [andb].
      destruct (arg_online args), (arg_download args); cbn [forallb andb];
        rewrite ?forallb_app;
        repeat match goal with
               | H : true = true -> _ |- _ => specialize (H eq_refl)
               end;
        rewrite ?(proj1 (is_online_returns _ _ _ Ho)),
                ?(proj1 (download_returns _ _ _ _ Hd));
        now destruct (truthy (arg_outdir args)).
    + exact Hs.
    + rewrite !invocations_app, invocations_query.
      destruct (arg_online args), (arg_download args);
        rewrite ?invocations_app, ?invocations_is_online,
                ?invocations_download;
        now destruct (truthy (arg_outdir args)).
Qed.

Lemma main_normal_exit_witness :
  forallb remote_ok (trace (main demo_world outdir_args) []) = true.
Proof.
  apply (main_normal_exit demo_world outdir_args []). reflexivity.
Defined.

(** X14.  [download] does not rely on what [is_online] was told: in a run
    with both [--online] and [--download] that ends normally, the status
    of every product the search returned is asked for twice, first for
    each product in order by the online check, then again for each
    product in order by the download. *)
Theorem main_asks_status_in_each_stage w args h :
  outcome (main w args) h = Return tt ->
  rejected_filter args = false ->
  exists area kwargs ps,
    searches (trace (main w args) h) = [ESearch area kwargs (Some ps)] /\
    map fst (status_queries (trace (main w args) h)) =
      (if arg_online args then map uuid ps else []) ++
      (if arg_download args then map uuid ps else []).
Proof.
  intros Hret Hrej.
  destruct (main_returns_stages _ _ _ Hret Hrej)
    as (ps & tq & -> & Hq & Ho & Hd & Ht).
  cbv zeta in *.
  destruct (query_returns _ _ _ _ _ _ _ _ Hq) as (_ & Hqsq & _).
  destruct (main_returns_search _ _ _ Hret Hrej ps Hq)
    as (area & kwargs & Hs).
  exists area, kwargs, ps. split; [exact Hs |].
  rewrite Ht, !status_queries_app, Hqsq. cbn [app]. rewrite map_app.
  f_equal.
  - destruct (arg_online args); [| reflexivity].
    apply is_online_returns, Ho. reflexivity.
  - destruct (arg_download args); [| reflexivity].
    rewrite status_queries_app.
    replace (status_queries (if truthy (arg_outdir args) then [] else [ECwd]))
      with (@nil (string * option Meta))
      by now destruct (truthy (arg_outdir args)).
    apply download_returns, Hd. reflexivity.
Qed.

Lemma main_asks_status_in_each_stage_witness :
  exists area kwargs ps,
    searches (trace (main demo_world outdir_args) []) =
      [ESearch area kwargs (Some ps)] /\
    map fst (status_queries (trace (main demo_world outdir_args) [])) =
      map uuid ps ++ map uuid ps.
Proof.
  apply (main_asks_status_in_each_stage demo_world outdir_args []);
    reflexivity.
Defined.

(** ** What gets downloaded *)

Lemma status_queries_In (t : list Event) id r :
  In (id, r) (status_queries t) -> In (EOdata id r) t.
Proof.
  induction t as [| e t IH]; cbn; [tauto |].
  intros [H | H]%in_app_or; [| right; now apply IH].
  destruct e; cbn in H; try tauto.
  destruct H as [[= -> ->] | []]. now left.
Qed.

Lemma combine_map_fst_In {A B C : Type} (f : A -> C) (l : list A)
    (l' : list B) x y :
  In (x, y) (combine l l') -> In (f x, y) (combine (map f l) l').
Proof.
  revert l'. induction l as [| a l IH]; intros [| b l']; cbn; try tauto.
  intros [[= -> ->] | H]; [now left | right; now apply IH].
Qed.

(** Where a download call of [download] comes from. *)
Lemma download_call_origin w ps out h id dir :
  In (id, dir) (download_calls (trace (download w ps out) h)) ->
  In id (map uuid ps) /\
  exists m,
    In (EOdata id (Some m)) (trace (download w ps out) h) /\
    meta_Online m = true.
Proof.
  unfold trace, download. rewrite with_session_run.
  destruct (environ w !! "user") as [u |]; [| intros []].
  destruct (environ w !! "password") as [p |]; [| intros []].
  cbn [snd].
  set (pre := prelude (CallDownload ps out) u p).
  change (download_calls (pre ++ ?t)) with (download_calls t).
  destruct (download_loop_run w (session u p) out ps (h ++ pre))
    as (answers & _ & Hsq & Hdc & _).
  rewrite Hdc. intros Hin. apply in_map_iff in Hin as ([row a] & Heq & Hin).
  injection Heq as <- <-.
  apply filter_In in Hin as [Hin Hon]. unfold reported_online in Hon.
  cbn in Hon. destruct a as [m |]; [| discriminate Hon]. split.
  - apply in_map. now apply in_combine_l in Hin.
  - exists m. split; [| exact Hon]. apply in_or_app. right.
    apply status_queries_In. rewrite Hsq.
    now apply (combine_map_fst_In uuid).
Qed.

Lemma no_download_call (t : list Event) :
  forallb (fun e => match e with EDownload _ _ _ => false | _ => true end) t
    = true ->
  download_calls t = [].
Proof.
  apply forallb_flat_map_nil. intros [] He; try reflexivity; discriminate.
Qed.

(** The stages after a query that returned [ps]: events without download
    calls, then possibly one run of [download] on [ps]. *)
Lemma after_query_bound_trace w args ps h :
  exists t2 td,
    trace (after_query w args (Some ps)) h = t2 ++ td /\
    download_calls t2 = [] /\
    (td = [] \/
     exists hh, td = trace (download w ps (chosen_outdir w args)) hh).
Proof.
  assert (Hod : forall hh, download_calls (trace (is_online w ps) hh) = [])
    by (intros hh; apply no_download_call, is_online_emits; auto).
  unfold trace at 1. rewrite after_query_bound. cbv zeta.
  set (t2 := if arg_online args then trace (is_online w ps) h else []).
  assert (Ht2 : download_calls t2 = [])
    by (subst t2; destruct (arg_online args); [apply Hod | reflexivity]).
  destruct (if arg_online args then outcome (is_online w ps) h else Return tt).
  - destruct (arg_download args); cbn [snd].
    + exists (t2 ++ (if truthy (arg_outdir args) then [] else [ECwd])).
      eexists. rewrite <- app_assoc. split; [reflexivity |]. split; eauto.
      rewrite download_calls_app, Ht2.
      now destruct (truthy (arg_outdir args)).
    + exists t2, []. rewrite app_nil_r. auto.
  - exists t2, []. cbn [snd]. rewrite app_nil_r. auto.
Qed.

(** X15.  Whatever the script downloads is a product that its own search
    returned in that run and that the catalogue, asked in that run,
    reported online. *)
Theorem main_downloads_online_search_results w args h id dir :
  In (id, dir) (download_calls (trace (main w args) h)) ->
  exists area kwargs ps m,
    In (ESearch area kwargs (Some ps)) (trace (main w args) h) /\
    In id (map uuid ps) /\
    In (EOdata id (Some m)) (trace (main w args) h) /\
    meta_Online m = true.
Proof.
  unfold trace at 1 2 3.
  destruct (required_present args) eqn:Hreq.
  2:{ rewrite (main_run_missing _ _ _ Hreq). intros []. }
  destruct (rejected_filter args) eqn:Hrej.
  { rewrite (main_run_rejected _ _ _ Hreq Hrej). cbn [snd app].
    unfold trace. rewrite after_query_unbound.
    destruct (arg_online args), (arg_download args),
             (truthy (arg_outdir args)); intros []. }
  rewrite (main_run_accepted _ _ _ Hreq Hrej). cbv zeta.
  match goal with
  | |- context [outcome ?q h] =>
      assert (Hqd : download_calls (trace q h) = [])
        by (apply no_download_call, query_emits; auto);
      destruct (outcome q h) as [ps |] eqn:Hq
  end; cbn [snd].
  2:{ rewrite Hqd. intros []. }
  destruct (query_returns _ _ _ _ _ _ _ _ Hq)
    as (_ & _ & area & kwargs & Hqs).
  match goal with
  | |- context [trace (after_query w args (Some ps)) ?hh] =>
      destruct (after_query_bound_trace w args ps hh)
        as (t2 & td & -> & Ht2 & Htd)
  end.
  rewrite !download_calls_app, Hqd, Ht2. cbn [app]. intros Hin.
  destruct Htd as [-> | [hh ->]]; [destruct Hin |].
  destruct (download_call_origin _ _ _ _ _ _ Hin) as (Hid & m & Hm & Hon).
  exists area, kwargs, ps, m. repeat split; auto.
  - apply in_or_app. left. eapply (proj1 (filter_In _ _ _)).
    unfold searches in Hqs. rewrite Hqs. now left.
  - apply in_or_app. right. apply in_or_app. now right.
Qed.

Lemma main_downloads_online_search_results_witness :
  exists area kwargs ps m,
    In (ESearch area kwargs (Some ps)) (trace (main demo_world outdir_args) []) /\
    In "uuid-1" (map uuid ps) /\
    In (EOdata "uuid-1" (Some m)) (trace (main demo_world outdir_args) []) /\
    meta_Online m = true.
Proof.
  apply (main_downloads_online_search_results demo_world outdir_args []
           "uuid-1" "/data/s1").
  vm_compute. tauto.
Defined.

(** ** Usage errors *)

Lemma main_no_parser_error w args h :
  required_present args = true ->
  forallb not_parser_error (trace (main w args) h) = true.
Proof.
  intros Hreq. unfold trace.
  assert (Ha : forall products hh,
             forallb not_parser_error
               (trace (after_query w args products) hh) = true).
  { intros products. apply after_query_emits; auto. }
  destruct (rejected_filter args) eqn:Hrej.
  - rewrite (main_run_rejected _ _ _ Hreq Hrej). cbn [snd app forallb].
    apply Ha.
  - rewrite (main_run_accepted _ _ _ Hreq Hrej). cbv zeta.
    match goal with
    | |- context [outcome ?q h] =>
        assert (Hq : forallb not_parser_error (trace q h) = true)
          by (apply query_emits; auto);
        destruct (outcome q h)
    end; cbn [snd]; rewrite ?forallb_app, Hq, ?Ha; reflexivity.
Qed.

(** X16.  Once the command line has been parsed into [args], the script
    itself calls [parser.error] exactly when the footprint, the start date
    or the end date is missing or empty in [args]: with the three of them
    given, none of the script's own checks reports a usage error, whatever
    the other parsed options hold and whatever the collaborators answer.
    The errors the parser raises by itself while reading the command line
    (an unknown option, an option without its value) come before [args]
    exists and are not part of this statement. *)
Theorem parser_error_iff_required_missing w args h :
  (exists msg, In (EParserError msg) (trace (main w args) h)) <->
  required_present args = false.
Proof.
  split.
  - intros [msg Hin]. destruct (required_present args) eqn:Hreq; [| reflexivity].
    pose proof (main_no_parser_error w args h Hreq) as H.
    rewrite forallb_forall in H. discriminate (H (EParserError msg) Hin).
  - intros Hreq. unfold trace. rewrite (main_run_missing _ _ _ Hreq).
    eexists. now left.
Qed.

Lemma parser_error_iff_required_missing_witness :
  exists msg, In (EParserError msg) (trace (main demo_world no_args) []).
Proof.
  apply (proj2 (parser_error_iff_required_missing demo_world no_args [])).
  reflexivity.
Defined.

(** ** Sessions *)

Lemma operation_sessions {A : Type} w c (body : Api -> Py A) :
  (forall api, emits past_prelude (body api)) ->
  emits (session_from_environment w)
    (emit (EInvoke c);;
     user ← os_environ w "user";
     password ← os_environ w "password";
     api ← sentinel_api user password;
     body api).
Proof.
  intros Hb h. unfold trace. rewrite with_session_run.
  destruct (environ w !! "user") as [u |] eqn:Hu; [| reflexivity].
  destruct (environ w !! "password") as [p |] eqn:Hp; [| reflexivity].
  cbn [snd]. rewrite forallb_app. apply andb_true_intro. split.
  - cbn. rewrite Hu, Hp, !String.eqb_refl. reflexivity.
  - generalize (Hb (session u p) (h ++ prelude c u p)).
    apply emits_weaken_list. intros [] He; try reflexivity; discriminate.
Qed.

Lemma query_sessions w fp s e pt pd :
  emits (session_from_environment w) (query w fp s e pt pd).
Proof.
  apply operation_sessions. intros api. apply query_body_emits; auto.
Qed.

Lemma is_online_sessions w ps :
  emits (session_from_environment w) (is_online w ps).
Proof.
  apply operation_sessions. intros api. apply is_online_body_emits; auto.
Qed.

Lemma download_sessions w ps out :
  emits (session_from_environment w) (download w ps out).
Proof.
  apply operation_sessions. intros api. apply download_loop_emits; auto.
Qed.

Lemma main_sessions w args :
  emits (session_from_environment w) (main w args).
Proof.
  unfold main, main_query.
  repeat first [ apply query_sessions
               | apply is_online_sessions
               | apply download_sessions
               | emits_step; auto ].
Qed.

(** X17.  Every [SentinelAPI] session built in a run of the script is
    for the hub at [https://scihub.copernicus.eu/dhus/] and carries the
    user and password found in the environment; the script connects
    nowhere else and as nobody else. *)
Theorem main_sessions_from_environment w args h a :
  In a (sessions (trace (main w args) h)) ->
  credentials w (api_user a) (api_password a) /\
  api_url a = "https://scihub.copernicus.eu/dhus/".
Proof.
  pose proof (main_sessions w args h) as H. revert H.
  generalize (trace (main w args) h) as t.
  induction t as [| e t IH]; cbn; [tauto |].
  intros [He Ht]%andb_prop [Hin | Hin]%in_app_or; [| now apply IH].
  destruct e; cbn in Hin; try tauto. destruct Hin as [<- | []].
  cbn in He. unfold credentials.
  destruct (environ w !! "user") as [u |]; [| discriminate He].
  destruct (environ w !! "password") as [p |]; [| discriminate He].
  apply andb_prop in He as [[Hu Hp]%andb_prop Hurl].
  apply String.eqb_eq in Hu, Hp, Hurl. subst. auto.
Qed.

Lemma main_sessions_from_environment_witness :
  credentials demo_world "alice" "secret".
Proof.
  apply (main_sessions_from_environment demo_world outdir_args []
           (session "alice" "secret")).
  vm_compute. tauto.
Defined.

(** ** Mixed availability *)

Lemma status_answers_some_online (products : list Product)
    (metas : list Meta) :
  length metas = length products ->
  existsb said_online (combine (map uuid products) (map Some metas)) =
  existsb meta_Online metas.
Proof.
  revert metas. induction products as [| r products IH];
    intros [| m metas] Hlen; try discriminate Hlen; [reflexivity |].
  cbn. unfold said_online at 1. cbn. f_equal. apply IH. cbn in Hlen. lia.
Qed.

Lemma status_answers_some_offline (products : list Product)
    (metas : list Meta) :
  length metas = length products ->
  existsb said_offline (combine (map uuid products) (map Some metas)) =
  existsb (fun m => negb (meta_Online m)) metas.
Proof.
  revert metas. induction products as [| r products IH];
    intros [| m metas] Hlen; try discriminate Hlen; [reflexivity |].
  cbn. unfold said_offline at 1. cbn. f_equal. apply IH. cbn in Hlen. lia.
Qed.

Lemma existsb_filter_cons {A B : Type} (f : A -> bool) (g : A -> B)
    (l : list A) :
  existsb f l = true ->
  exists x xs, map g (List.filter f l) = x :: xs.
Proof.
  induction l as [| a l IH]; cbn; [discriminate |].
  destruct (f a); cbn; eauto.
Qed.

(** X18.  When every status query is answered, at least one of them
    "online" and at least one "offline", [is_online] prints, in this
    order: the line with the two counts, the heading [Online products],
    the online titles, the heading [offline products], the offline
    titles; the counts are the sizes of the two groups. *)
Theorem is_online_mixed w products h u p :
  credentials w u p ->
  forallb answered (status_queries (trace (is_online w products) h)) = true ->
  existsb said_online (status_queries (trace (is_online w products) h)) = true ->
  existsb said_offline (status_queries (trace (is_online w products) h)) = true ->
  exists metas,
    let online := map meta_title (List.filter meta_Online metas) in
    let offline :=
      map meta_title (List.filter (fun m => negb (meta_Online m)) metas) in
    length metas = length products /\
    status_queries (trace (is_online w products) h) =
      combine (map uuid products) (map Some metas) /\
    outcome (is_online w products) h = Return tt /\
    printed (trace (is_online w products) h) =
      mixed_line (length online) (length offline) ::
      ["Online products"; nl] :: map (fun x => [x]) online ++
      ["offline products"; nl] :: map (fun x => [x]) offline.
Proof.
  intros Hc Hall Hon Hoff.
  destruct (is_online_answered w products h u p answered Hc) as
    (metas & Hlen & Hsq & Hout & Hpr); [auto | exact Hall |].
  exists metas. cbv zeta. repeat split; try assumption.
  rewrite Hsq in Hon, Hoff.
  rewrite (status_answers_some_online _ _ Hlen) in Hon.
  rewrite (status_answers_some_offline _ _ Hlen) in Hoff.
  destruct (existsb_filter_cons _ meta_title _ Hon) as (x & xs & Hx).
  destruct (existsb_filter_cons _ meta_title _ Hoff) as (y & ys & Hy).
  rewrite Hpr, is_online_report_printed, Hx, Hy. reflexivity.
Qed.

Lemma is_online_mixed_witness :
  exists metas,
    printed (trace (is_online demo_world [scene1; scene2]) []) =
      mixed_line
        (length (map meta_title (List.filter meta_Online metas)))
        (length (map meta_title
                   (List.filter (fun m => negb (meta_Online m)) metas))) ::
      ["Online products"; nl] ::
      map (fun x => [x]) (map meta_title (List.filter meta_Online metas)) ++
      ["offline products"; nl] ::
      map (fun x => [x])
          (map meta_title
             (List.filter (fun m => negb (meta_Online m)) metas)).
Proof.
  destruct (is_online_mixed demo_world [scene1; scene2] [] "alice" "secret"
              (conj eq_refl eq_refl) eq_refl eq_refl eq_refl)
    as (metas & _ & _ & _ & Hp).
  exists metas. exact Hp.
Defined.

(** ** Without credentials *)

Lemma remote_calls_app (a b : list Event) :
  remote_calls (a ++ b) = remote_calls a ++ remote_calls b.
Proof. apply List.filter_app. Qed.

(** X19.  With ['user'] or ['password'] missing from the environment, no
    run of the script reaches the catalogue or builds a session, whatever
    the command line; and when the required arguments are given and the
    filters accepted, the run ends in the [KeyError] of the missing name,
    raised inside [query], the only operation entered. *)
Theorem main_without_credentials w args h :
  environ w !! "user" = None \/ environ w !! "password" = None ->
  remote_calls (trace (main w args) h) = [] /\
  sessions (trace (main w args) h) = [] /\
  (required_present args = true -> rejected_filter args = false ->
   exists key,
     outcome (main w args) h = Raise (KeyError key) /\
     (key = "user" \/ key = "password") /\
     environ w !! key = None /\
     invocations (trace (main w args) h) =
       [CallQuery (str_of (arg_footprint args)) (str_of (arg_start_date args))
                  (str_of (arg_end_date args))
                  (effective (arg_product_type args))
                  (effective (arg_pass_direction args))]).
Proof.
  intros Henv. unfold outcome, trace.
  destruct (required_present args) eqn:Hreq.
  2:{ rewrite (main_run_missing _ _ _ Hreq). repeat split; discriminate. }
  destruct (rejected_filter args) eqn:Hrej.
  { rewrite (main_run_rejected _ _ _ Hreq Hrej). cbn [fst snd app].
    unfold trace. rewrite after_query_unbound.
    destruct (arg_online args), (arg_download args),
             (truthy (arg_outdir args)); repeat split; discriminate. }
  rewrite (main_run_accepted _ _ _ Hreq Hrej). cbv zeta.
  unfold outcome, trace. rewrite query_cases. cbv zeta.
  destruct (environ w !! "user") as [u |] eqn:Hu.
  - destruct Henv as [Henv | Henv]; [discriminate |]. rewrite Henv.
    cbn. repeat split. intros _ _. exists "password". auto.
  - cbn. repeat split. intros _ _. exists "user". auto.
Qed.

Lemma main_without_credentials_witness :
  remote_calls (trace (main anonymous_world outdir_args) []) = [] /\
  exists key,
    outcome (main anonymous_world outdir_args) [] = Raise (KeyError key).
Proof.
  destruct (main_without_credentials anonymous_world outdir_args []
              (or_introl eq_refl)) as (Hr & _ & H).
  split; [exact Hr |].
  destruct (H eq_refl eq_refl) as (key & Hk & _). exists key. exact Hk.
Defined.

(** ** What the later stages work on *)

Lemma after_query_bound_invocations w args ps h c :
  In c (invocations (trace (after_query w args (Some ps)) h)) ->
  c = CallIsOnline ps \/ c = CallDownload ps (chosen_outdir w args).
Proof.
  unfold trace at 1. rewrite after_query_bound. cbv zeta.
  assert (Ht2 : forall c,
             In c (invocations
                     (if arg_online args then trace (is_online w ps) h
                      else [])) -> c = CallIsOnline ps).
  { intros c'. destruct (arg_online args); [| intros []].
    rewrite invocations_is_online. now intros [<- | []]. }
  destruct (if arg_online args then outcome (is_online w ps) h else Return tt).
  - destruct (arg_download args); cbn [snd]; [| auto].
    rewrite !invocations_app, invocations_download.
    replace (invocations (if truthy (arg_outdir args) then [] else [ECwd]))
      with (@nil Call) by now destruct (truthy (arg_outdir args)).
    cbn [app]. intros [H | [<- | []]]%in_app_or; auto.
  - cbn [snd]. auto.
Qed.

Lemma after_query_no_search w args products h :
  searches (trace (after_query w args products) h) = [].
Proof.
  apply (forallb_filter_nil
           (fun e => match e with ESearch _ _ _ => false | _ => true end)).
  - intros [] He; try reflexivity; discriminate.
  - apply after_query_emits; auto.
Qed.

(** X20.  In every run of the script, whether it ends normally or not,
    the only operations entered are [query], with the arguments of the
    command line, and then [is_online] and [download]; these two are
    entered only after the one search of the run has returned, and only
    with exactly the products it returned, [download] with the chosen
    directory.  A search that raises, or a [query] that fails before its
    search, keeps both from running. *)
Theorem main_stages_receive_search_result w args h c :
  In c (invocations (trace (main w args) h)) ->
  c = CallQuery (str_of (arg_footprint args)) (str_of (arg_start_date args))
                (str_of (arg_end_date args))
                (effective (arg_product_type args))
                (effective (arg_pass_direction args)) \/
  exists area kwargs ps,
    searches (trace (main w args) h) = [ESearch area kwargs (Some ps)] /\
    (c = CallIsOnline ps \/ c = CallDownload ps (chosen_outdir w args)).
Proof.
  unfold trace at 1 2.
  destruct (required_present args) eqn:Hreq.
  2:{ rewrite (main_run_missing _ _ _ Hreq). intros []. }
  destruct (rejected_filter args) eqn:Hrej.
  { rewrite (main_run_rejected _ _ _ Hreq Hrej). cbn [snd app].
    unfold trace. rewrite after_query_unbound.
    destruct (arg_online args), (arg_download args),
             (truthy (arg_outdir args)); intros []. }
  rewrite (main_run_accepted _ _ _ Hreq Hrej). cbv zeta.
  match goal with
  | |- context [outcome ?q h] =>
      pose proof (invocations_query w _ _ _ _ _ h : invocations (trace q h) = _)
        as Hqi;
      destruct (outcome q h) as [ps |] eqn:Hq
  end; cbn [snd].
  2:{ rewrite Hqi. intros [<- | []]. now left. }
  rewrite invocations_app, Hqi. intros [[<- | []] | Hin]%in_app_or;
    [now left | right].
  destruct (query_returns _ _ _ _ _ _ _ _ Hq)
    as (_ & _ & area & kwargs & Hqs).
  exists area, kwargs, ps. split.
  - rewrite searches_app, Hqs, after_query_no_search. reflexivity.
  - eapply after_query_bound_invocations, Hin.
Qed.

Lemma main_stages_receive_search_result_witness :
  exists area kwargs ps,
    searches (trace (main demo_world outdir_args) []) =
      [ESearch area kwargs (Some ps)] /\
    (CallDownload [scene1; scene2] "/data/s1" = CallIsOnline ps \/
     CallDownload [scene1; scene2] "/data/s1" =
       CallDownload ps (chosen_outdir demo_world outdir_args)).
Proof.
  destruct (main_stages_receive_search_result demo_world outdir_args []
              (CallDownload [scene1; scene2] "/data/s1")) as [H | H].
  - vm_compute. tauto.
  - discriminate H.
  - exact H.
Defined.
